(** * start_insights_services.py: a shallow embedding and its properties

    The script prepares a secrets directory from [.env], patches two YAML
    files by text substitution and drives [docker compose].  Every function
    of the script is embedded below under its own name, as a computation in
    a small monad that threads the state the script acts on (the files,
    what was printed, the processes that were started) and lets an
    exception escape with the state reached so far.

    Conventions of the embedding.
    - A Python [str] is a Rocq [string].  Text is taken to be ASCII, which
      is what the files at hand hold; characters above 127 are carried
      through unchanged (Python's Unicode line boundaries, white space and
      case mapping above 127 are not embedded).
    - A file holds the text that [read()] returns and [write()] receives
      (newline translation of text mode is below this level).
    - Paths are POSIX paths and are compared as written: [.], [..],
      repeated separators and symbolic links are not resolved.
      Permissions and device errors are not embedded.
    - The container CLI and the entropy source are oracles of the host. *)

From Stdlib Require Import Ascii String.
From stdpp Require Import gmap strings list fin_maps.

Set Default Proof Using "Type".

(** ** Python string methods *)

Module Str.

(** [s.startswith(p)] *)
Definition startswith (p s : string) : bool := String.prefix p s.

(** [sub in s] *)
Fixpoint contains (sub s : string) : bool :=
  startswith sub s ||
  match s with
  | EmptyString => false
  | String _ s' => contains sub s'
  end.

Fixpoint drop (n : nat) (s : string) : string :=
  match n, s with
  | S n', String _ s' => drop n' s'
  | _, _ => s
  end.

(** [s.replace(old, new)] for the empty [old]: [new] before every
    character and at the end. *)
Fixpoint replace_empty (new s : string) : string :=
  new +:+ match s with
          | EmptyString => EmptyString
          | String c s' => String c (replace_empty new s')
          end.

(** [s.replace(old, new)] for a non-empty [old]: the leftmost occurrence
    is replaced and the scan resumes behind it.  [skip] counts the
    characters of a matched occurrence that are still to be passed. *)
Fixpoint replace_go (skip : nat) (old new s : string) : string :=
  match s with
  | EmptyString => EmptyString
  | String c s' =>
      match skip with
      | S k => replace_go k old new s'
      | O =>
          if startswith old s
          then new +:+ replace_go (String.length old - 1) old new s'
          else String c (replace_go 0 old new s')
      end
  end.

Definition replace (old new s : string) : string :=
  match old with
  | EmptyString => replace_empty new s
  | _ => replace_go 0 old new s
  end.

(** The line boundaries of [str.splitlines] below 128. *)
Definition is_linebreak (c : ascii) : bool :=
  match c with
  | "010" | "011" | "012" | "013" | "028" | "029" | "030" => true
  | _ => false
  end%char.

Definition push_char (c : ascii) (ls : list string) : list string :=
  match ls with
  | [] => [String c EmptyString]
  | l :: ls' => String c l :: ls'
  end.

(** [s.splitlines()]: no line for the empty remainder after a final
    boundary; CR LF is one boundary. *)
Fixpoint splitlines (s : string) : list string :=
  match s with
  | EmptyString => []
  | String c s' =>
      if is_linebreak c then
        match c, s' with
        | "013"%char, String "010"%char s'' => EmptyString :: splitlines s''
        | _, _ => EmptyString :: splitlines s'
        end
      else push_char c (splitlines s')
  end.

(** [str.isspace] on one character below 128. *)
Definition is_space (c : ascii) : bool :=
  match c with
  | "009" | "010" | "011" | "012" | "013"
  | "028" | "029" | "030" | "031" | " " => true
  | _ => false
  end%char.

Fixpoint lstrip_by (f : ascii -> bool) (s : string) : string :=
  match s with
  | EmptyString => EmptyString
  | String c s' => if f c then lstrip_by f s' else s
  end.

Fixpoint rstrip_by (f : ascii -> bool) (s : string) : string :=
  match s with
  | EmptyString => EmptyString
  | String c s' =>
      match rstrip_by f s' with
      | EmptyString => if f c then EmptyString else String c EmptyString
      | r => String c r
      end
  end.

Definition strip_by (f : ascii -> bool) (s : string) : string :=
  rstrip_by f (lstrip_by f s).

(** [s.strip()] *)
Definition strip (s : string) : string := strip_by is_space s.

(** [s.strip(c)] for a one-character argument *)
Definition strip_char (c : ascii) (s : string) : string :=
  strip_by (fun x => bool_decide (x = c)) s.

Definition lower_char (c : ascii) : ascii :=
  let n := nat_of_ascii c in
  if (65 <=? n) && (n <=? 90) then ascii_of_nat (n + 32) else c.

(** [s.lower()] *)
Fixpoint lower (s : string) : string :=
  match s with
  | EmptyString => EmptyString
  | String c s' => String (lower_char c) (lower s')
  end.

(** [s.split(sep, 1)] for a one-character separator: one element when
    the separator does not occur, two otherwise. *)
Fixpoint split1 (sep : ascii) (s : string) : list string :=
  match s with
  | EmptyString => [EmptyString]
  | String c s' =>
      if bool_decide (c = sep) then [EmptyString; s']
      else match split1 sep s' with
           | [a; b] => [String c a; b]
           | _ => [s]
           end
  end.

(** [sep.join(l)] *)
Fixpoint join (sep : string) (l : list string) : string :=
  match l with
  | [] => EmptyString
  | [x] => x
  | x :: l' => x +:+ sep +:+ join sep l'
  end.

Definition truthy (s : string) : bool :=
  match s with EmptyString => false | _ => true end.

Fixpoint has_char (c : ascii) (s : string) : bool :=
  match s with
  | EmptyString => false
  | String x s' => bool_decide (x = c) || has_char c s'
  end.

Fixpoint last_char (s : string) : option ascii :=
  match s with
  | EmptyString => None
  | String c EmptyString => Some c
  | String _ s' => last_char s'
  end.

End Str.

(** ** The state the script acts on *)

Inductive node :=
| File (content : string)
| Dir.

Inductive exn :=
| FileNotFoundError
| FileExistsError
| IsADirectoryError
| NotADirectoryError
| OSError
| ValueError
| CalledProcessError.

(** What [subprocess.run] meets: the process ran and left an exit code and
    its standard output, or the executable could not be started. *)
Inductive proc_outcome :=
| Exited (code : nat) (out : string)
| NotStarted.

(** The host: the container CLI, as a function of the commands run before
    and the command run now, and the entropy source, as a function of the
    number of the draw and of the index of the byte. *)
Record host := Host {
  subprocess : list (list string) -> list string -> proc_outcome;
  urandom : nat -> nat -> ascii
}.

Record world := World {
  files : gmap string node;
  printed : list string;
  spawned : list (list string);
  draws : nat
}.

Definition set_files (f : gmap string node) (w : world) : world :=
  World f (printed w) (spawned w) (draws w).
Definition add_printed (s : string) (w : world) : world :=
  World (files w) (printed w ++ [s]) (spawned w) (draws w).
Definition add_spawned (c : list string) (w : world) : world :=
  World (files w) (printed w) (spawned w ++ [c]) (draws w).
Definition next_draw (w : world) : world :=
  World (files w) (printed w) (spawned w) (S (draws w)).

(** ** The monad: state that survives an exception *)

Inductive result (A : Type) :=
| Done (a : A)
| Raised (e : exn).
Arguments Done {A} a.
Arguments Raised {A} e.

Definition M (A : Type) : Type := host -> world -> result A * world.

Definition ret {A} (a : A) : M A := fun _ w => (Done a, w).

Definition bind {A B} (c : M A) (k : A -> M B) : M B :=
  fun h w =>
    match c h w with
    | (Done a, w') => k a h w'
    | (Raised e, w') => (Raised e, w')
    end.

Definition raise {A} (e : exn) : M A := fun _ w => (Raised e, w).

(** [try: c  except Exception as e: handler e] *)
Definition try_except {A} (c : M A) (handler : exn -> M A) : M A :=
  fun h w =>
    match c h w with
    | (Raised e, w') => handler e h w'
    | r => r
    end.

Declare Scope py_scope.
Delimit Scope py_scope with py.
Bind Scope py_scope with M.
Notation "x ← y ; z" := (bind y (fun x => z))
  (at level 20, y at level 100, z at level 200, only parsing) : py_scope.
Notation "x ;; z" := (bind x (fun _ => z))
  (at level 100, z at level 200, only parsing, right associativity) : py_scope.
Open Scope py_scope.

Definition print (s : string) : M unit := fun _ w => (Done tt, add_printed s w).

Definition get_files : M (gmap string node) := fun _ w => (Done (files w), w).
Definition put_files (f : gmap string node) : M unit := fun _ w => (Done tt, set_files f w).

(** [for x in l: body x] *)
Fixpoint for_each {A} (l : list A) (body : A -> M unit) : M unit :=
  match l with
  | [] => ret tt
  | x :: l' => body x;; for_each l' body
  end.

(** ** Paths and files *)

(** [os.path.join(a, b)] of posixpath. *)
Definition path_join (a b : string) : string :=
  if Str.startswith "/" b then b
  else match a, Str.last_char a with
       | EmptyString, _ => b
       | _, Some "/"%char => a +:+ b
       | _, _ => a +:+ "/" +:+ b
       end.

(** The text before and after the last separator, when there is one. *)
Fixpoint rsplit_slash (p : string) : option (string * string) :=
  match p with
  | EmptyString => None
  | String c p' =>
      match rsplit_slash p' with
      | Some (d, b) => Some (String c d, b)
      | None => if bool_decide (c = "/"%char) then Some (EmptyString, p') else None
      end
  end.

(** A name that can be given to a new file in a directory. *)
Definition valid_name (n : string) : bool :=
  Str.truthy n && negb (bool_decide (n = ".")) && negb (bool_decide (n = ".."))
  && negb (Str.has_char "/" n) && negb (Str.has_char "000" n)
  && (String.length n <=? 255).

(** The direct entry of directory [d] that path [p] names, if any. *)
Definition child_name (d p : string) : option string :=
  if Str.startswith (d +:+ "/") p then
    let n := Str.drop (String.length d + 1) p in
    if Str.truthy n && negb (Str.has_char "/" n) then Some n else None
  else None.

Definition exists_in (f : gmap string node) (p : string) : bool :=
  match f !! p with Some _ => true | None => false end.

Definition isfile_in (f : gmap string node) (p : string) : bool :=
  match f !! p with Some (File _) => true | _ => false end.

Definition os_path_exists (p : string) : M bool :=
  f ← get_files; ret (exists_in f p).

Definition os_path_isfile (p : string) : M bool :=
  f ← get_files; ret (isfile_in f p).

Definition listdir_in (f : gmap string node) (d : string) : list string :=
  omap (fun e => child_name d e.1) (map_to_list f).

Definition os_listdir (d : string) : M (list string) :=
  f ← get_files;
  match f !! d with
  | Some Dir => ret (listdir_in f d)
  | Some (File _) => raise NotADirectoryError
  | None => raise FileNotFoundError
  end.

(** Whether the directory part of a path lets an entry be created in it:
    no directory part is the working directory, the empty one the root. *)
Definition parent_check (f : gmap string node) (d : option string) : option exn :=
  match d with
  | None | Some EmptyString => None
  | Some d =>
      match f !! d with
      | Some Dir => None
      | Some (File _) => Some NotADirectoryError
      | None => Some FileNotFoundError
      end
  end.

Definition name_check (p b : string) : option exn :=
  if negb (Str.truthy p) then Some FileNotFoundError
  else if negb (Str.truthy b) || bool_decide (b = ".") || bool_decide (b = "..")
  then Some IsADirectoryError
  else if negb (String.length b <=? 255) then Some OSError
  else None.

Definition dir_base (p : string) : option string * string :=
  match rsplit_slash p with
  | Some (d, b) => (Some d, b)
  | None => (None, p)
  end.

(** What stands in the way of creating the entry [p]. *)
Definition create_check (f : gmap string node) (p : string) : option exn :=
  if Str.has_char "000" p then Some ValueError
  else match name_check p (dir_base p).2 with
       | Some e => Some e
       | None => parent_check f (dir_base p).1
       end.

Definition os_mkdir (p : string) : M unit :=
  f ← get_files;
  match f !! p with
  | Some _ => raise FileExistsError
  | None =>
      match create_check f p with
      | Some e => raise e
      | None => put_files (<[p := Dir]> f)
      end
  end.

Definition os_remove (p : string) : M unit :=
  f ← get_files;
  match f !! p with
  | Some (File _) => put_files (delete p f)
  | Some Dir => raise IsADirectoryError
  | None => raise FileNotFoundError
  end.

(** [with open(p, 'r') as f: f.read()] *)
Definition read_text (p : string) : M string :=
  f ← get_files;
  match f !! p with
  | Some (File c) => ret c
  | Some Dir => raise IsADirectoryError
  | None => raise FileNotFoundError
  end.

(** [with open(p, 'w') as f: f.write(text)] *)
Definition write_text (p text : string) : M unit :=
  f ← get_files;
  match f !! p with
  | Some (File _) => put_files (<[p := File text]> f)
  | Some Dir => raise IsADirectoryError
  | None =>
      match create_check f p with
      | Some e => raise e
      | None => put_files (<[p := File text]> f)
      end
  end.

(** [shutil.copyfile(src, dst)] *)
Definition shutil_copyfile (src dst : string) : M unit :=
  c ← read_text src; write_text dst c.

(** ** The script *)

(** [subprocess.run(cmd, check=True, capture_output=..., text=True)]: the
    standard output of a run that exits with 0. *)
Definition subprocess_run (cmd : list string) : M string :=
  fun h w =>
    match subprocess h (spawned w) cmd with
    | Exited 0 out => (Done out, add_spawned cmd w)
    | Exited _ _ => (Raised CalledProcessError, add_spawned cmd w)
    | NotStarted => (Raised FileNotFoundError, add_spawned cmd w)
    end.

Definition run_command (cmd : list string) : M string :=
  print ("Running: " +:+ Str.join " " cmd);;
  subprocess_run cmd.

Definition secret_keys : list string :=
  ["KEY"; "PASSWORD"; "USERNAME"; "SALT"; "TOKEN"; "SECRET"; "AUTH"].

(** [line.strip() and not line.strip().startswith('#')] *)
Definition keeps_line (line : string) : bool :=
  Str.truthy (Str.strip line) && negb (Str.startswith "#" (Str.strip line)).

Definition env_lines (content : string) : list string :=
  List.filter keeps_line (Str.splitlines content).

(** [any(key in line for key in secret_keys)] *)
Definition has_marker (line : string) : bool :=
  existsb (fun key => Str.contains key line) secret_keys.

Definition unquote (value : string) : string :=
  Str.strip_char "'" (Str.strip_char "034" (Str.strip value)).

(** The body of the loop over the lines of the environment file. *)
Definition prepare_env_line (secrets_path line : string) : M unit :=
  if negb (has_marker line) then ret tt
  else
    match Str.split1 "=" line with
    | [key; value] =>
        let key := Str.lower key in
        let value := unquote value in
        let secret_file_path := path_join secrets_path key in
        write_text secret_file_path value
    | _ => raise ValueError
    end.

(** The body of the loop that empties the secrets directory. *)
Definition prepare_env_clear (secrets_path filename : string) : M unit :=
  let file_path := path_join secrets_path filename in
  isf ← os_path_isfile file_path;
  if isf then os_remove file_path else ret tt.

Definition prepare_env : M unit :=
  let env_path := ".env" in
  let secrets_path := ".secrets" in
  ex ← os_path_exists secrets_path;
  (if negb ex then os_mkdir secrets_path else ret tt);;
  print ("Preparing secrets in " +:+ secrets_path +:+ "...");;
  names ← os_listdir secrets_path;
  for_each names (prepare_env_clear secrets_path);;
  content ← read_text env_path;
  for_each (env_lines content) (prepare_env_line secrets_path);;
  print "Secrets prepared.".

(** [if profile and profile != "None"] *)
Definition profile_selected (profile : option string) : option string :=
  match profile with
  | Some p => if Str.truthy p && negb (bool_decide (p = "None")) then Some p else None
  | None => None
  end.

(** The body of the loop over [compose_files]. *)
Definition docker_compose_file (file : string) : M (list string) :=
  ex ← os_path_exists file;
  if ex then ret ["-f"; file]
  else
    print ("Warning: Docker Compose file " +:+ file +:+ " does not exist and will be skipped.");;
    ret [].

Fixpoint docker_compose_files (compose_files : list string) : M (list string) :=
  match compose_files with
  | [] => ret []
  | file :: rest =>
      a ← docker_compose_file file;
      b ← docker_compose_files rest;
      ret (a ++ b)
  end.

Definition docker_compose (project profile environment : option string)
    (compose_files : list string) (env_file : string) : M (list string) :=
  let cmd := ["docker"; "compose"] in
  let cmd := cmd ++ match project with Some p => ["-p"; p] | None => [] end in
  let cmd := cmd ++ ["--env-file"; env_file] in
  let cmd := cmd ++ match profile_selected profile with
                    | Some p => ["--profile"; p]
                    | None => []
                    end in
  let cmd := cmd ++ ["-f"; "docker-compose.yml"; "-f"; "docker-compose.override.yml"] in
  let cmd := cmd ++ match environment with
                    | Some e =>
                        if Str.truthy e
                        then ["-f"; path_join "local-ai-packaged"
                                      ("docker-compose.override." +:+ e +:+ ".yml")]
                        else []
                    | None => []
                    end in
  extra ← docker_compose_files compose_files;
  ret (cmd ++ extra).

Definition stop_existing_containers (project profile : option string) : M unit :=
  print "Stopping and removing existing containers for the unified project 'insights-lm'...";;
  cmd ← docker_compose None profile None [] ".env";
  run_command (cmd ++ ["down"]);;
  ret tt.

Definition pull_docker_images (compose_files : list string) (update : bool) : M unit :=
  let chkcmd := ["docker"; "image"; "ls"; "ollama/ollama:latest"] in
  out ← subprocess_run chkcmd;
  if Str.contains "ollama/ollama:latest" out && negb update
  then print "Images already present, skipping pull."
  else
    for_each compose_files (fun compose_file : string =>
      print ("Pulling latest images for " +:+ compose_file +:+ "...");;
      run_command ["docker"; "compose"; "-p"; "insights-lm"; "--env-file"; ".env";
                   "-f"; compose_file; "pull"];;
      ret tt).

Definition generate_yml (project profile environment : option string)
    (compose_files : list string) : M string :=
  print "Generating combined docker-compose.yml...";;
  cmd ← docker_compose project profile environment compose_files ".env";
  run_command (cmd ++ ["config"]).

Definition start_insights_lm (project profile environment : option string)
    (compose_files : list string) : M unit :=
  print "Starting Insights LM services...";;
  cmd ← docker_compose project profile environment compose_files ".env";
  run_command (cmd ++ ["up"; "-d"]);;
  ret tt.

(** [secrets.token_hex(n)]: [n] bytes of the entropy source, each as two
    lower-case hexadecimal digits. *)
Definition hex_digit (n : nat) : ascii :=
  nth n (list_ascii_of_string "0123456789abcdef") "0"%char.

Definition hex_of_byte (b : ascii) (rest : string) : string :=
  let n := nat_of_ascii b in
  String (hex_digit (n / 16)) (String (hex_digit (n mod 16)) rest).

Definition hexlify (bytes : list ascii) : string :=
  foldr hex_of_byte EmptyString bytes.

Definition secrets_token_hex (n : nat) : M string :=
  fun h w => (Done (hexlify (List.map (urandom h (draws w)) (seq 0 n))), next_draw w).

Definition placeholder : string := "ultrasecretkey".

(** [str(e)] in the messages of the handlers, shortened to the name of the
    class of the exception. *)
Definition exn_text (e : exn) : string :=
  match e with
  | FileNotFoundError => "FileNotFoundError"
  | FileExistsError => "FileExistsError"
  | IsADirectoryError => "IsADirectoryError"
  | NotADirectoryError => "NotADirectoryError"
  | OSError => "OSError"
  | ValueError => "ValueError"
  | CalledProcessError => "CalledProcessError"
  end.

(** The second [try] block of [generate_searxng_secret_key]. *)
Definition generate_searxng_secret_key_rewrite (settings_path : string) : M unit :=
  try_except
    (content ← read_text settings_path;
     if negb (Str.contains placeholder content)
     then print "SearXNG secret key already set in settings.yml, no action needed."
     else
       random_key ← secrets_token_hex 32;
       let new_content := Str.replace placeholder random_key content in
       write_text settings_path new_content;;
       print "SearXNG secret key generated successfully.")
    (fun e => print ("Error generating SearXNG secret key: " +:+ exn_text e)).

Definition generate_searxng_secret_key : M unit :=
  print "Checking SearXNG settings...";;
  let settings_path := path_join "searxng" "settings.yml" in
  let settings_base_path := path_join "searxng" "settings-base.yml" in
  base ← os_path_exists settings_base_path;
  if negb base
  then print ("Warning: SearXNG base settings file not found at " +:+ settings_base_path)
  else
    present ← os_path_exists settings_path;
    if negb present then
      print ("SearXNG settings.yml not found. Creating from " +:+ settings_base_path +:+ "...");;
      copied ← try_except
        (shutil_copyfile settings_base_path settings_path;;
         print ("Created " +:+ settings_path +:+ " from " +:+ settings_base_path);;
         ret true)
        (fun e => print ("Error creating settings.yml: " +:+ exn_text e);; ret false);
      if copied then generate_searxng_secret_key_rewrite settings_path else ret tt
    else generate_searxng_secret_key_rewrite settings_path.

Definition cap_drop : string := "cap_drop: - ALL".
Definition cap_drop_off : string :=
  "# cap_drop: - ALL  # Temporarily commented out for first run".

Definition check_and_fix_docker_compose_for_searxng : M unit :=
  let docker_compose_path := "docker-compose.yml" in
  ex ← os_path_exists docker_compose_path;
  if negb ex
  then print ("Warning: Docker Compose file not found at " +:+ docker_compose_path)
  else
    try_except
      (content ← read_text docker_compose_path;
       let settings_path := path_join "searxng" "settings.yml" in
       sex ← os_path_exists settings_path;
       placeholder_present ←
         (if sex
          then try_except
                 (sf ← read_text settings_path; ret (Str.contains placeholder sf))
                 (fun _ => ret false)
          else ret false);
       if placeholder_present && Str.contains cap_drop content then
         print "First run detected for SearXNG. Temporarily removing 'cap_drop: - ALL' directive...";;
         let modified_content := Str.replace cap_drop cap_drop_off content in
         write_text docker_compose_path modified_content;;
         print "Note: After the first run completes, re-add 'cap_drop: - ALL' for security."
       else if negb placeholder_present && Str.contains cap_drop_off content then
         print "SearXNG appears initialized. Re-enabling 'cap_drop: - ALL' directive for security...";;
         let modified_content := Str.replace cap_drop_off cap_drop content in
         write_text docker_compose_path modified_content
       else ret tt)
      (fun e => print ("Error checking/modifying docker-compose.yml for SearXNG: " +:+ exn_text e)).

(** The namespace that [parse_args] returns. *)
Inductive profile_choice := cpu | gpu_nvidia | gpu_amd | none.
Inductive environment_choice := private | public.

Definition profile_str (p : profile_choice) : string :=
  match p with
  | cpu => "cpu"
  | gpu_nvidia => "gpu-nvidia"
  | gpu_amd => "gpu-amd"
  | none => "none"
  end.

Definition environment_str (e : environment_choice) : string :=
  match e with private => "private" | public => "public" end.

Record args := Args {
  name : string;
  profile : profile_choice;
  environment : environment_choice;
  compose_files : list string;
  config : bool;
  update : bool
}.

Definition default_args : args := Args "insights-lm" cpu private [] false false.

Definition main (a : args) : M unit :=
  if config a then
    yml_content ← generate_yml (Some (name a)) (Some (profile_str (profile a)))
                     (Some (environment_str (environment a))) (compose_files a);
    print yml_content
  else
    prepare_env;;
    generate_searxng_secret_key;;
    check_and_fix_docker_compose_for_searxng;;
    stop_existing_containers (Some (profile_str (profile a))) None;;
    pull_docker_images
      (["docker-compose.yml"; "local-ai-packaged/docker-compose.yml";
        "supabase-insights-lm/docker-compose.yml"] ++ compose_files a) (update a);;
    start_insights_lm (Some (name a)) (Some (profile_str (profile a)))
      (Some (environment_str (environment a))) (compose_files a).

(** ** The vocabulary of the statements *)

Definition skip_warning (file : string) : string :=
  "Warning: Docker Compose file " +:+ file +:+ " does not exist and will be skipped.".

Definition add_printed_all (l : list string) (w : world) : world :=
  World (files w) (printed w ++ l) (spawned w) (draws w).

(** The part of the command that does not depend on the extra files. *)
Definition docker_compose_head (project profile environment : option string)
    (env_file : string) : list string :=
  ["docker"; "compose"]
  ++ match project with Some p => ["-p"; p] | None => [] end
  ++ ["--env-file"; env_file]
  ++ match profile_selected profile with Some p => ["--profile"; p] | None => [] end
  ++ ["-f"; "docker-compose.yml"; "-f"; "docker-compose.override.yml"]
  ++ match environment with
     | Some e =>
         if Str.truthy e
         then ["-f"; path_join "local-ai-packaged" ("docker-compose.override." +:+ e +:+ ".yml")]
         else []
     | None => []
     end.

Definition down_cmd_of_main : list string :=
  ["docker"; "compose"; "--env-file"; ".env";
   "-f"; "docker-compose.yml"; "-f"; "docker-compose.override.yml"; "down"].

Definition is_hex (c : ascii) : bool := Str.has_char c "0123456789abcdef".

Fixpoint all_chars (f : ascii -> bool) (s : string) : bool :=
  match s with
  | EmptyString => true
  | String c s' => f c && all_chars f s'
  end.

Definition settings_path : string := "searxng/settings.yml".

(** The first-run signal: the runtime settings can be read and hold the
    placeholder. *)
Definition first_run (f : gmap string node) : bool :=
  match f !! settings_path with
  | Some (File s) => Str.contains placeholder s
  | _ => false
  end.

Definition manifest_path : string := "docker-compose.yml".

(** The text of the sentinel behind its first two characters. *)
Definition sentinel_tail : string := "  # Temporarily commented out for first run".

Definition secrets_path : string := ".secrets".

(** The path of the entry [n] of the secrets directory. *)
Definition secret_file (n : string) : string := ".secrets/" +:+ n.

(** A name of a direct entry: not empty and without a separator. *)
Definition entry_name (n : string) : bool :=
  Str.truthy n && negb (Str.has_char "/" n).

(** The loop that empties the directory, on the files alone. *)
Definition clear_step (d : string) (f : gmap string node) (n : string) : gmap string node :=
  if isfile_in f (path_join d n) then delete (path_join d n) f else f.

(** The files when [prepare_env] reaches [open(env_path)]: the directory
    exists and none of its direct entries is a plain file. *)
Definition cleared (f : gmap string node) : gmap string node :=
  let f0 := match f !! secrets_path with
            | None => <[secrets_path := Dir]> f
            | Some _ => f
            end in
  foldl (clear_step secrets_path) f0 (listdir_in f0 secrets_path).

(** The rest of [prepare_env] from [open(env_path)] on. *)
Definition prepare_env_fill : M unit :=
  content ← read_text ".env";
  for_each (env_lines content) (prepare_env_line secrets_path);;
  print "Secrets prepared.".

Definition world_cleared (w : world) : world :=
  World (cleared (files w)) (printed w ++ ["Preparing secrets in .secrets..."])
    (spawned w) (draws w).

(** The entry that a line yields: the lower-cased key and the unquoted
    value of a line with a marker and a separator. *)
Definition yields (line n c : string) : Prop :=
  has_marker line = true /\
  exists k v, Str.split1 "=" line = [k; v] /\ Str.lower k = n /\ unquote v = c.

Definition well_formed_line (f : gmap string node) (line : string) : Prop :=
  has_marker line = true ->
  exists k v, Str.split1 "=" line = [k; v]
              /\ valid_name (Str.lower k) = true
              /\ f !! secret_file (Str.lower k) <> Some Dir.

Definition line_feed : string := String "010" EmptyString.

(** ** Worlds and a host to run the script on *)

Definition quiet_host : host :=
  Host (fun _ _ => Exited 0 "services: {}") (fun _ i => ascii_of_nat (7 * i + 3)).

Definition world_without_base : world :=
  World (list_to_map [("searxng/settings.yml", File "secret_key: ultrasecretkey")]) [] [] 0.

Definition world_first_run : world :=
  World (list_to_map
           [("searxng/settings-base.yml", File "secret_key: ultrasecretkey");
            ("searxng/settings.yml", File "a: ultrasecretkey b: ultrasecretkey");
            ("docker-compose.yml", File "searxng: cap_drop: - ALL image: x")])
        [] [] 0.

Definition world_after_first_run : world :=
  World (list_to_map
           [("searxng/settings-base.yml", File "secret_key: ultrasecretkey");
            ("searxng/settings.yml", File "a: 0123 b: 4567");
            ("docker-compose.yml",
             File "searxng: # cap_drop: - ALL  # Temporarily commented out for first run image: x")])
        [] [] 0.

Definition world_without_env : world :=
  World (list_to_map
           [(".secrets", Dir); (".secrets/db_password", File "old");
            (".secrets/keep", Dir); ("docker-compose.yml", File "services: {}")])
        [] [] 0.

Definition world_marker_in_value : world :=
  World (list_to_map
           [(".env", File ("DB_PASSWORD='secr3t'" +:+ line_feed +:+ "HOST=MY_KEY_SERVER"
                           +:+ line_feed +:+ "# comment" +:+ line_feed +:+ "PORT=8080"));
            (".secrets", Dir); (".secrets/stale", File "old")])
        [] [] 0.

(** ** More vocabulary, worlds and hosts *)

Definition no_linebreak (s : string) : bool :=
  all_chars (fun c => negb (Str.is_linebreak c)) s.

(** [c.isupper()] on one character below 128. *)
Definition is_upper (c : ascii) : bool :=
  let n := nat_of_ascii c in (65 <=? n) && (n <=? 90).

(** The entry that a line of the environment file stands for, if any: the
    name of its file and the content. *)
Definition line_entry (line : string) : option (string * string) :=
  if has_marker line then
    match Str.split1 "=" line with
    | [k; v] => Some (Str.lower k, unquote v)
    | _ => None
    end
  else None.

Definition fill_step (f : gmap string node) (line : string) : gmap string node :=
  match line_entry line with
  | Some (n, c) => <[secret_file n := File c]> f
  | None => f
  end.

(** The loop over the lines, on the files alone. *)
Definition fill (f : gmap string node) (lines : list string) : gmap string node :=
  foldl fill_step f lines.

(** The hypotheses under which every line of [.env] can be written. *)
Definition env_ready (content : string) (f : gmap string node) : Prop :=
  f !! ".env" = Some (File content)
  /\ (forall c, f !! ".secrets" <> Some (File c))
  /\ (forall line, In line (env_lines content) -> well_formed_line f line).

Definition world_duplicate_keys : world :=
  World (list_to_map
           [(".env", File ("API_KEY=one" +:+ line_feed +:+ "HOST=localhost"
                           +:+ line_feed +:+ "API_KEY=two"));
            ("docker-compose.yml", File "services: {}")])
        [] [] 0.

(** A computation that starts no process and draws no entropy. *)
Definition quiet {A} (c : M A) : Prop :=
  forall h w, spawned (c h w).2 = spawned w /\ draws (c h w).2 = draws w.

Definition settings_base_path : string := "searxng/settings-base.yml".

(** The two calls of [main] between the extractor and the stop phase. *)
Definition bootstrap_then_patch : M unit :=
  generate_searxng_secret_key;;
  check_and_fix_docker_compose_for_searxng.

Definition world_first_use : world :=
  World (list_to_map
           [("searxng", Dir);
            ("searxng/settings-base.yml", File "secret_key: ultrasecretkey");
            ("docker-compose.yml", File "searxng: cap_drop: - ALL image: x")])
        [] [] 0.

Definition world_stale_settings : world :=
  World (list_to_map
           [("searxng/settings.yml", File "secret_key: ultrasecretkey");
            ("docker-compose.yml", File "searxng: cap_drop: - ALL image: x")])
        [] [] 0.

(** A host on which every command starts and exits with 0. *)
Definition always_succeeds (h : host) : Prop :=
  forall hist cmd, exists out, subprocess h hist cmd = Exited 0 out.

Definition image_check_cmd : list string :=
  ["docker"; "image"; "ls"; "ollama/ollama:latest"].

(** Whether the image check, run after the commands [hist], lists the
    marker image. *)
Definition image_listed (h : host) (hist : list (list string)) : bool :=
  match subprocess h hist image_check_cmd with
  | Exited 0 out => Str.contains "ollama/ollama:latest" out
  | _ => false
  end.

Definition pull_cmd (compose_file : string) : list string :=
  ["docker"; "compose"; "-p"; "insights-lm"; "--env-file"; ".env";
   "-f"; compose_file; "pull"].

(** The body of the loop of [pull_docker_images]. *)
Definition pull_one (compose_file : string) : M unit :=
  print ("Pulling latest images for " +:+ compose_file +:+ "...");;
  run_command (pull_cmd compose_file);;
  ret tt.

(** The files that [main] always pulls for. *)
Definition base_compose_files : list string :=
  ["docker-compose.yml"; "local-ai-packaged/docker-compose.yml";
   "supabase-insights-lm/docker-compose.yml"].

(** The command of the start phase, for the files [f] on disk. *)
Definition up_cmd (a : args) (f : gmap string node) : list string :=
  docker_compose_head (Some (name a)) (Some (profile_str (profile a)))
    (Some (environment_str (environment a))) ".env"
  ++ flat_map (fun file => ["-f"; file]) (List.filter (exists_in f) (compose_files a))
  ++ ["up"; "-d"].

(** A host on which pulling for [extra.yml] fails. *)
Definition host_failing_pull : host :=
  Host (fun _ cmd => if bool_decide (cmd = pull_cmd "extra.yml")
                     then Exited 1 "no such file"
                     else Exited 0 EmptyString)
       (fun _ _ => "000"%char).

(** A host on which [down] fails. *)
Definition host_failing_down : host :=
  Host (fun _ cmd => if bool_decide (cmd = down_cmd_of_main)
                     then Exited 1 "daemon not running"
                     else Exited 0 EmptyString)
       (fun _ _ => "000"%char).

(** The three phases of [main] that run the container CLI. *)
Definition cli_phases (a : args) : M unit :=
  stop_existing_containers (Some (profile_str (profile a))) None;;
  pull_docker_images (base_compose_files ++ compose_files a) (update a);;
  start_insights_lm (Some (name a)) (Some (profile_str (profile a)))
    (Some (environment_str (environment a))) (compose_files a).

Definition world_secrets_is_file : world :=
  World (list_to_map [(".env", File "API_KEY=one"); (".secrets", File "not a directory")])
        [] [] 0.

Definition world_bad_line : world :=
  World (list_to_map
           [(".env", File ("API_KEY=one" +:+ line_feed +:+ "SECRET_WITHOUT_VALUE"
                           +:+ line_feed +:+ "DB_PASSWORD=two"));
            (".secrets", Dir); (".secrets/db_password", File "stale")])
        [] [] 0.

(** * Properties *)

(** ** The string methods on examples *)

Example splitlines_ex :
  Str.splitlines
    ("a=1" +:+ String "010" (String "013" (String "010" ("# c" +:+ String "010" "b"))))
  = ["a=1"; EmptyString; "# c"; "b"].
Proof. reflexivity. Qed.

Example replace_ex : Str.replace "ab" "X" "abcabab-a" = "XcXX-a".
Proof. reflexivity. Qed.

Example strip_ex :
  Str.strip_char "'" (Str.strip_char "034"
    (Str.strip ("  " +:+ String "034" ("'v' " +:+ String "034" "  ")))) = "v' ".
Proof. reflexivity. Qed.

Example split1_ex : Str.split1 "=" "A=b=c" = ["A"; "b=c"] /\ Str.split1 "=" "Abc" = ["Abc"].
Proof. split; reflexivity. Qed.

Example lower_ex : Str.lower "Db_PASSWORD9" = "db_password9".
Proof. reflexivity. Qed.

(** ** The command builder *)

Ltac run_step :=
  unfold bind, ret, raise, print, get_files, put_files, os_path_exists,
    os_path_isfile; simpl.

Lemma add_printed_all_nil w : add_printed_all [] w = w.
Proof. destruct w; unfold add_printed_all; simpl; by rewrite app_nil_r. Qed.

Lemma add_printed_all_cons s l w :
  add_printed_all l (add_printed s w) = add_printed_all (s :: l) w.
Proof. unfold add_printed_all, add_printed; simpl. by rewrite <- app_assoc. Qed.

(** The loop over the extra files never raises: it yields the flags of the
    files that exist and prints a warning for each of the others. *)
Lemma docker_compose_files_eq (cfs : list string) (h : host) (w : world) :
  docker_compose_files cfs h w =
    (Done (flat_map (fun file => ["-f"; file]) (List.filter (exists_in (files w)) cfs)),
     add_printed_all
       (List.map skip_warning (List.filter (fun file => negb (exists_in (files w) file)) cfs)) w).
Proof.
  revert w. induction cfs as [|file rest IH]; intros w.
  - simpl. unfold ret. by rewrite add_printed_all_nil.
  - simpl. unfold docker_compose_file. run_step.
    destruct (exists_in (files w) file) eqn:E; simpl.
    + rewrite IH. reflexivity.
    + rewrite IH. simpl. rewrite add_printed_all_cons. reflexivity.
Qed.

Lemma docker_compose_eq project profile environment cfs env_file h w :
  docker_compose project profile environment cfs env_file h w =
    (Done (docker_compose_head project profile environment env_file
           ++ flat_map (fun file => ["-f"; file]) (List.filter (exists_in (files w)) cfs)),
     add_printed_all
       (List.map skip_warning (List.filter (fun file => negb (exists_in (files w) file)) cfs)) w).
Proof.
  unfold docker_compose, bind. rewrite docker_compose_files_eq. unfold ret.
  f_equal. f_equal. unfold docker_compose_head.
  rewrite <- !app_assoc. reflexivity.
Qed.

(** C7.  For every list of extra overlay paths, [docker_compose] returns a
    command (it never raises): the command is the fixed head followed by
    [-f path] for exactly the listed paths that exist on disk, in order; a
    path is among the appended ones if and only if it is listed and exists;
    each listed path that does not exist yields the warning and nothing
    else; files, started processes and entropy are untouched. *)
Theorem docker_compose_extra_files_iff_exist
    (project profile environment : option string) (cfs : list string)
    (env_file : string) (h : host) (w : world) :
  let appended := List.filter (exists_in (files w)) cfs in
  let skipped := List.filter (fun file => negb (exists_in (files w) file)) cfs in
  docker_compose project profile environment cfs env_file h w =
    (Done (docker_compose_head project profile environment env_file
           ++ flat_map (fun file => ["-f"; file]) appended),
     World (files w) (printed w ++ List.map skip_warning skipped) (spawned w) (draws w))
  /\ (forall file, In file appended <-> In file cfs /\ exists_in (files w) file = true)
  /\ (forall file, In file skipped <-> In file cfs /\ exists_in (files w) file = false).
Proof.
  intros appended skipped. split; [apply docker_compose_eq|].
  split; intros file; unfold appended, skipped; rewrite filter_In.
  - reflexivity.
  - by rewrite negb_true_iff.
Qed.

(** C2.  The guard of [docker_compose] compares the profile with the
    text [None], which is none of the choices of [--profile]: for the
    choice [none] the command carries [--profile none], exactly as it
    carries [--profile gpu-nvidia] for the choice [gpu-nvidia].  Only the
    text [None], the empty text and an absent profile give no flag. *)
Theorem docker_compose_profile_none_is_passed
    (project environment : option string) (cfs : list string)
    (env_file : string) (h : host) (w : world) :
  (exists rest w',
     docker_compose project (Some (profile_str none)) environment cfs env_file h w =
       (Done ((["docker"; "compose"]
               ++ match project with Some p => ["-p"; p] | None => [] end
               ++ ["--env-file"; env_file])
              ++ ["--profile"; "none"] ++ rest), w'))
  /\ (exists rest w',
     docker_compose project (Some (profile_str gpu_nvidia)) environment cfs env_file h w =
       (Done ((["docker"; "compose"]
               ++ match project with Some p => ["-p"; p] | None => [] end
               ++ ["--env-file"; env_file])
              ++ ["--profile"; "gpu-nvidia"] ++ rest), w'))
  /\ profile_selected (Some "None") = None
  /\ profile_selected None = None.
Proof.
  repeat split; try reflexivity.
  all: rewrite docker_compose_eq; unfold docker_compose_head; simpl profile_selected;
    eexists; eexists; f_equal; f_equal; rewrite <- !app_assoc; simpl; reflexivity.
Qed.

(** C3.  [main] calls [stop_existing_containers(args.profile)], which
    binds the profile to the parameter [project]; that parameter is not
    used, and the command is built without a project.  Whatever the
    argument, the process started by the stop phase is
    [docker compose --env-file .env -f docker-compose.yml
     -f docker-compose.override.yml down]: it has no [-p] flag and does
    not name [insights-lm].  A run of [main] with the default arguments
    starts this command first. *)
Theorem stop_existing_containers_has_no_project
    (project : option string) (h : host) (w : world) :
  spawned (stop_existing_containers project None h w).2 = spawned w ++ [down_cmd_of_main]
  /\ ~ In "-p" down_cmd_of_main
  /\ ~ In "insights-lm" down_cmd_of_main
  /\ hd_error (spawned (main default_args quiet_host world_marker_in_value).2)
     = Some down_cmd_of_main.
Proof.
  split; [|split; [|split; [|vm_compute; reflexivity]]].
  - unfold stop_existing_containers, bind, print.
    rewrite docker_compose_eq. cbn -[Str.join].
    unfold run_command, subprocess_run, bind, print. cbn -[Str.join].
    destruct (subprocess h _ _) as [[|c] out|]; reflexivity.
  - intros H; simpl in H; intuition discriminate.
  - intros H; simpl in H; intuition discriminate.
Qed.

(** ** The config-only path *)

Lemma run_command_frame (cmd : list string) (h : host) (w : world) :
  files (run_command cmd h w).2 = files w
  /\ spawned (run_command cmd h w).2 = spawned w ++ [cmd]
  /\ draws (run_command cmd h w).2 = draws w.
Proof.
  unfold run_command, subprocess_run, bind, print. cbn -[Str.join].
  destruct (subprocess h _ _) as [[|c] out|]; repeat split.
Qed.

Lemma run_command_done (cmd : list string) (out : string) (h : host) (w : world) :
  subprocess h (spawned w) cmd = Exited 0 out ->
  run_command cmd h w =
    (Done out, add_spawned cmd (add_printed ("Running: " +:+ Str.join " " cmd) w)).
Proof.
  intros E. unfold run_command, subprocess_run, bind, print. cbn -[Str.join].
  by rewrite E.
Qed.

Lemma generate_yml_eq project profile environment cfs h w :
  generate_yml project profile environment cfs h w =
    run_command
      (docker_compose_head project profile environment ".env"
       ++ flat_map (fun file => ["-f"; file]) (List.filter (exists_in (files w)) cfs)
       ++ ["config"]) h
      (add_printed_all
         (List.map skip_warning (List.filter (fun file => negb (exists_in (files w) file)) cfs))
         (add_printed "Generating combined docker-compose.yml..." w)).
Proof.
  unfold generate_yml, bind at 1 2. unfold print at 1.
  rewrite docker_compose_eq. by rewrite <- app_assoc.
Qed.

(** C6.  With the config-only flag, [main] starts one process, the
    command of [docker_compose] followed by [config], and nothing else: no
    file is created, changed or removed (in particular the secrets
    directory, [searxng/settings.yml] and [docker-compose.yml]), no entropy
    is drawn and no [down], [pull] or [up] command is started.  When that
    process exits with 0, [main] returns after printing its output. *)
Theorem main_config_only_leaves_files (a : args) (h : host) (w : world) :
  config a = true ->
  let cmd :=
    docker_compose_head (Some (name a)) (Some (profile_str (profile a)))
      (Some (environment_str (environment a))) ".env"
    ++ flat_map (fun file => ["-f"; file]) (List.filter (exists_in (files w)) (compose_files a))
    ++ ["config"] in
  files (main a h w).2 = files w
  /\ spawned (main a h w).2 = spawned w ++ [cmd]
  /\ draws (main a h w).2 = draws w
  /\ (forall out, subprocess h (spawned w) cmd = Exited 0 out ->
        (main a h w).1 = Done tt /\ last (printed (main a h w).2) = Some out).
Proof.
  intros Hc. cbv zeta. unfold main. rewrite Hc.
  unfold bind at 1 2 3 4 5. rewrite generate_yml_eq.
  set (cmd := docker_compose_head _ _ _ _ ++ _).
  set (w1 := add_printed_all _ _).
  assert (Hsp : spawned w1 = spawned w) by reflexivity.
  pose proof (run_command_frame cmd h w1) as (Hf & Hs & Hd).
  repeat split.
  - destruct (run_command cmd h w1) as [[out|e] w2]; simpl in *; done.
  - destruct (run_command cmd h w1) as [[out|e] w2]; simpl in *; by rewrite Hs.
  - destruct (run_command cmd h w1) as [[out|e] w2]; simpl in *; done.
  - rewrite (run_command_done cmd out h w1); [reflexivity | by rewrite Hsp].
  - rewrite (run_command_done cmd out h w1); [| by rewrite Hsp].
    unfold print. simpl. by rewrite last_snoc.
Qed.

(** ** The search-service bootstrapper without its base template *)

(** C10.  When [searxng/settings-base.yml] does not exist,
    [generate_searxng_secret_key] prints its two messages and returns: no
    file is read or written and no entropy is drawn, so a
    [searxng/settings.yml] that holds the placeholder keeps it. *)
Theorem generate_searxng_secret_key_without_base (h : host) (w : world) :
  files w !! "searxng/settings-base.yml" = None ->
  generate_searxng_secret_key h w =
    (Done tt,
     World (files w)
       (printed w ++ ["Checking SearXNG settings...";
                      "Warning: SearXNG base settings file not found at searxng/settings-base.yml"])
       (spawned w) (draws w)).
Proof.
  intros Hb. unfold generate_searxng_secret_key. run_step.
  change (path_join "searxng" "settings-base.yml") with "searxng/settings-base.yml".
  unfold exists_in at 1. rewrite Hb. cbn [negb].
  unfold add_printed. cbn [files printed spawned draws].
  rewrite <- app_assoc. reflexivity.
Qed.

Lemma generate_searxng_secret_key_without_base_witness :
  files world_without_base !! "searxng/settings-base.yml" = None
  /\ files (generate_searxng_secret_key quiet_host world_without_base).2
       !! "searxng/settings.yml" = Some (File "secret_key: ultrasecretkey").
Proof.
  split; [reflexivity|].
  rewrite (generate_searxng_secret_key_without_base quiet_host world_without_base);
    reflexivity.
Defined.

Lemma main_config_only_leaves_files_witness :
  config (Args "insights-lm" none public ["extra.yml"] true false) = true
  /\ files (main (Args "insights-lm" none public ["extra.yml"] true false)
              quiet_host world_without_base).2 = files world_without_base.
Proof.
  split; [reflexivity|].
  apply (main_config_only_leaves_files
           (Args "insights-lm" none public ["extra.yml"] true false)
           quiet_host world_without_base).
  reflexivity.
Defined.

(** ** Facts about prefixes, occurrences and [replace] *)

Lemma app_cons (a : ascii) (s r : string) : String a s +:+ r = String a (s +:+ r).
Proof. reflexivity. Qed.

Lemma app_empty (r : string) : EmptyString +:+ r = r.
Proof. reflexivity. Qed.

Lemma startswith_empty (s : string) : Str.startswith EmptyString s = true.
Proof. by destruct s. Qed.

Lemma startswith_cons (a b : ascii) (p s : string) :
  Str.startswith (String a p) (String b s) = bool_decide (a = b) && Str.startswith p s.
Proof.
  unfold Str.startswith. simpl. destruct (ascii_dec a b) as [->|Hne].
  - by rewrite bool_decide_eq_true_2.
  - by rewrite bool_decide_eq_false_2.
Qed.

Lemma startswith_app (p r : string) : Str.startswith p (p +:+ r) = true.
Proof.
  induction p as [|a p IH]; [apply startswith_empty|].
  rewrite app_cons, startswith_cons, IH. by rewrite bool_decide_eq_true_2.
Qed.

Lemma startswith_inv (p s : string) :
  Str.startswith p s = true -> exists r, s = p +:+ r.
Proof.
  revert s. induction p as [|a p IH]; intros s H.
  - by exists s.
  - destruct s as [|b s]; [discriminate|].
    rewrite startswith_cons in H. apply andb_true_iff in H as [Hab Hp].
    apply bool_decide_eq_true_1 in Hab as ->.
    destruct (IH _ Hp) as [r ->]. by exists r.
Qed.

Lemma startswith_app_l (u v z : string) :
  Str.startswith (u +:+ v) z = true -> Str.startswith u z = true.
Proof.
  revert z. induction u as [|a u IH]; intros z H; [apply startswith_empty|].
  destruct z as [|b z]; [discriminate|].
  rewrite app_cons, startswith_cons in H. rewrite startswith_cons.
  apply andb_true_iff in H as [-> Hp]. simpl. eauto.
Qed.

Lemma drop_app (p r : string) : Str.drop (String.length p) (p +:+ r) = r.
Proof. induction p as [|a p IH]; [by destruct r|]. by rewrite app_cons. Qed.

Lemma length_app (p r : string) :
  String.length (p +:+ r) = String.length p + String.length r.
Proof. induction p as [|a p IH]; [done|]. rewrite app_cons. simpl. by rewrite IH. Qed.

Lemma contains_cons (sub : string) (c : ascii) (s : string) :
  Str.contains sub (String c s) = Str.startswith sub (String c s) || Str.contains sub s.
Proof. reflexivity. Qed.

Lemma contains_startswith (sub s : string) :
  Str.startswith sub s = true -> Str.contains sub s = true.
Proof. intros H. destruct s; cbn [Str.contains]; by rewrite H. Qed.

Lemma replace_go_skip (old new : string) (k : nat) (s : string) :
  Str.replace_go k old new s = Str.replace_go 0 old new (Str.drop k s).
Proof.
  revert k. induction s as [|c s IH]; intros [|k]; try reflexivity.
  simpl Str.drop. rewrite <- IH. reflexivity.
Qed.

Lemma replace_go_match (a : ascii) (o new r : string) :
  Str.replace_go 0 (String a o) new (String a o +:+ r) =
  new +:+ Str.replace_go 0 (String a o) new r.
Proof.
  rewrite app_cons. cbn [Str.replace_go].
  rewrite <- app_cons, startswith_app.
  rewrite replace_go_skip.
  replace (String.length (String a o) - 1) with (String.length o) by (simpl; lia).
  by rewrite drop_app.
Qed.

Lemma truthy_inv (s : string) : Str.truthy s = true -> exists a o, s = String a o.
Proof. destruct s as [|a o]; [discriminate|]. by exists a, o. Qed.

Section Replace.
Variables old new : string.
Hypothesis old_nonempty : Str.truthy old = true.

Lemma replace_nonempty (s : string) : Str.replace old new s = Str.replace_go 0 old new s.
Proof using old_nonempty.
  destruct (truthy_inv _ old_nonempty) as (a & o & ->). reflexivity.
Qed.

Lemma replace_nil : Str.replace old new EmptyString = EmptyString.
Proof using old_nonempty. by rewrite replace_nonempty. Qed.

Lemma replace_match (r : string) :
  Str.replace old new (old +:+ r) = new +:+ Str.replace old new r.
Proof using old_nonempty.
  rewrite !replace_nonempty.
  destruct (truthy_inv _ old_nonempty) as (a & o & ->). apply replace_go_match.
Qed.

Lemma replace_nomatch (c : ascii) (s : string) :
  Str.startswith old (String c s) = false ->
  Str.replace old new (String c s) = String c (Str.replace old new s).
Proof using old_nonempty.
  intros H. rewrite !replace_nonempty. cbn [Str.replace_go]. by rewrite H.
Qed.

(** Induction along the scan of [replace]. *)
Lemma replace_ind (P : string -> Prop) :
  P EmptyString ->
  (forall r, P r -> P (old +:+ r)) ->
  (forall c s, Str.startswith old (String c s) = false -> P s -> P (String c s)) ->
  forall s, P s.
Proof using old_nonempty.
  intros H0 Hm Hn s.
  remember (String.length s) as n eqn:Hlen. revert s Hlen.
  induction n as [n IH] using lt_wf_ind. intros s Hlen.
  destruct s as [|c s]; [exact H0|].
  destruct (Str.startswith old (String c s)) eqn:E.
  - destruct (startswith_inv _ _ E) as [r Hr]. rewrite Hr. apply Hm.
    apply (IH (String.length r)); [|reflexivity].
    rewrite Hlen, Hr, length_app.
    destruct (truthy_inv _ old_nonempty) as (a & o & ->). simpl. lia.
  - apply Hn; [exact E|]. apply (IH (String.length s)); [|reflexivity].
    rewrite Hlen. simpl. lia.
Qed.

(** A word none of whose non-empty suffixes can start at the head of an
    inserted [new] begins the result only if it begins the argument. *)
Lemma startswith_replace_inv (w : string) :
  (forall k y, k < String.length w ->
     Str.startswith (Str.drop k w) (new +:+ y) = false) ->
  forall x, Str.startswith w (Str.replace old new x) = true -> Str.startswith w x = true.
Proof using old_nonempty.
  induction w as [|a w IH]; intros Hw x H; [apply startswith_empty|].
  destruct x as [|c x]; [by rewrite replace_nil in H|].
  destruct (Str.startswith old (String c x)) eqn:E.
  - destruct (startswith_inv _ _ E) as [r Hr]. rewrite Hr, replace_match in H.
    specialize (Hw 0 (Str.replace old new r)). simpl in Hw.
    rewrite Hw in H; [discriminate | lia].
  - rewrite replace_nomatch in H by exact E.
    rewrite startswith_cons in H |- *.
    apply andb_true_iff in H as [-> H]. simpl.
    apply IH; [|exact H]. intros k y Hk. apply (Hw (S k) y). simpl. lia.
Qed.

Lemma contains_replace_cons (c : ascii) (s : string) :
  (forall k y, k < String.length old ->
     Str.startswith (Str.drop k old) (new +:+ y) = false) ->
  Str.startswith old (String c s) = false ->
  Str.contains old (Str.replace old new s) = false ->
  Str.contains old (Str.replace old new (String c s)) = false.
Proof using old_nonempty.
  intros Hw E IHs. rewrite replace_nomatch by exact E.
  rewrite contains_cons, IHs, orb_false_r.
  destruct (Str.startswith old (String c (Str.replace old new s))) eqn:F; [|done].
  rewrite <- replace_nomatch in F by exact E.
  apply startswith_replace_inv in F; [congruence | exact Hw].
Qed.

End Replace.

(** ** The search-service bootstrapper *)

Lemma hex_digit_is_hex (k : nat) : k < 16 -> is_hex (hex_digit k) = true.
Proof.
  intros Hk. do 16 (destruct k as [|k]; [reflexivity|]). lia.
Qed.

Lemma hexlify_length (bytes : list ascii) :
  String.length (hexlify bytes) = 2 * length bytes.
Proof.
  induction bytes as [|b bytes IH]; [reflexivity|].
  cbn [hexlify foldr hex_of_byte String.length length].
  fold (hexlify bytes). rewrite IH. lia.
Qed.

Lemma hexlify_is_hex (bytes : list ascii) : all_chars is_hex (hexlify bytes) = true.
Proof.
  induction bytes as [|b bytes IH]; [reflexivity|].
  cbn [hexlify foldr hex_of_byte all_chars]. fold (hexlify bytes).
  pose proof (nat_ascii_bounded b) as Hb.
  rewrite !hex_digit_is_hex, IH; [reflexivity| |].
  - apply Nat.mod_upper_bound. lia.
  - apply Nat.Div0.div_lt_upper_bound. lia.
Qed.

Lemma startswith_all_chars (f : ascii -> bool) (w tok y : string) :
  all_chars f tok = true ->
  String.length w <= String.length tok ->
  Str.startswith w (tok +:+ y) = true ->
  all_chars f w = true.
Proof.
  revert tok. induction w as [|a w IH]; intros tok Ht Hl H; [reflexivity|].
  destruct tok as [|b tok]; [simpl in Hl; lia|].
  rewrite app_cons, startswith_cons in H. apply andb_true_iff in H as [Hab H].
  apply bool_decide_eq_true_1 in Hab as ->.
  cbn [all_chars] in Ht |- *. apply andb_true_iff in Ht as [Hb Ht].
  rewrite Hb. simpl. apply (IH tok); [exact Ht | simpl in Hl; lia | exact H].
Qed.

(** No suffix of the placeholder can begin inside a hexadecimal token. *)
Lemma placeholder_not_in_hex (tok : string) :
  all_chars is_hex tok = true ->
  String.length placeholder <= String.length tok ->
  forall k y, k < String.length placeholder ->
    Str.startswith (Str.drop k placeholder) (tok +:+ y) = false.
Proof.
  intros Ht Hl k y Hk.
  destruct (Str.startswith (Str.drop k placeholder) (tok +:+ y)) eqn:E; [|reflexivity].
  apply (startswith_all_chars is_hex) in E; [|exact Ht|].
  - do 14 (destruct k as [|k]; [discriminate E|]). simpl in Hk. lia.
  - do 14 (destruct k as [|k]; [simpl in *; lia|]). simpl in Hk. lia.
Qed.

Lemma hex_not_placeholder_head (c : ascii) (z : string) :
  is_hex c = true -> Str.startswith placeholder (String c z) = false.
Proof.
  intros Hc. unfold placeholder. rewrite startswith_cons.
  destruct (bool_decide ("u"%char = c)) eqn:E; [|reflexivity].
  apply bool_decide_eq_true_1 in E. subst c. discriminate Hc.
Qed.

Lemma contains_hex_app (tok x : string) :
  all_chars is_hex tok = true ->
  Str.contains placeholder x = false ->
  Str.contains placeholder (tok +:+ x) = false.
Proof.
  intros Ht Hx. induction tok as [|c tok IH]; [exact Hx|].
  cbn [all_chars] in Ht. apply andb_true_iff in Ht as [Hc Ht].
  rewrite app_cons, contains_cons, hex_not_placeholder_head by exact Hc.
  simpl. by apply IH.
Qed.

(** After the substitution of a hexadecimal token that is at least as long
    as the placeholder, the placeholder does not occur. *)
Lemma replace_placeholder_gone (tok content : string) :
  all_chars is_hex tok = true ->
  String.length placeholder <= String.length tok ->
  Str.contains placeholder (Str.replace placeholder tok content) = false.
Proof.
  intros Ht Hl.
  induction content as [| r IH | c s E IH] using (replace_ind placeholder eq_refl).
  - reflexivity.
  - rewrite replace_match by reflexivity. by apply contains_hex_app.
  - apply contains_replace_cons; [reflexivity | | exact E | exact IH].
    by apply placeholder_not_in_hex.
Qed.

Lemma rewrite_with_placeholder (content : string) (h : host) (w : world) :
  files w !! settings_path = Some (File content) ->
  Str.contains placeholder content = true ->
  generate_searxng_secret_key_rewrite settings_path h w =
    (Done tt,
     World
       (<[settings_path :=
            File (Str.replace placeholder
                    (hexlify (List.map (urandom h (draws w)) (seq 0 32))) content)]> (files w))
       (printed w ++ ["SearXNG secret key generated successfully."])
       (spawned w) (S (draws w))).
Proof.
  intros Hf Hc. unfold generate_searxng_secret_key_rewrite, try_except, read_text.
  unfold bind at 1 2. unfold get_files at 1. cbn [fst snd]. rewrite Hf.
  unfold ret at 1. rewrite Hc. cbn [negb].
  unfold bind at 1. unfold secrets_token_hex at 1.
  unfold write_text, bind, get_files, next_draw, put_files, print, set_files, add_printed.
  cbn [files printed spawned draws]. rewrite Hf. reflexivity.
Qed.

Lemma rewrite_without_placeholder (content : string) (h : host) (w : world) :
  files w !! settings_path = Some (File content) ->
  Str.contains placeholder content = false ->
  generate_searxng_secret_key_rewrite settings_path h w =
    (Done tt,
     add_printed "SearXNG secret key already set in settings.yml, no action needed." w).
Proof.
  intros Hf Hc. unfold generate_searxng_secret_key_rewrite, try_except, read_text.
  unfold bind at 1 2. unfold get_files at 1. cbn [fst snd]. rewrite Hf.
  unfold ret at 1. rewrite Hc. reflexivity.
Qed.

Lemma generate_searxng_secret_key_settled (base : node) (content : string)
    (h : host) (w : world) :
  files w !! "searxng/settings-base.yml" = Some base ->
  files w !! settings_path = Some (File content) ->
  generate_searxng_secret_key h w =
    generate_searxng_secret_key_rewrite settings_path h
      (add_printed "Checking SearXNG settings..." w).
Proof.
  intros Hb Hf. unfold generate_searxng_secret_key.
  change (path_join "searxng" "settings-base.yml") with "searxng/settings-base.yml".
  change (path_join "searxng" "settings.yml") with settings_path.
  unfold bind at 1. unfold print at 1.
  unfold bind at 1. unfold os_path_exists at 1, bind at 1, get_files at 1, ret at 1.
  cbn [files add_printed]. unfold exists_in at 1. rewrite Hb. cbn [negb].
  unfold bind at 1. unfold os_path_exists at 1, bind at 1, get_files at 1, ret at 1.
  cbn [files add_printed]. unfold exists_in at 1. rewrite Hf. reflexivity.
Qed.



(** ** The first-run patcher *)

Lemma cap_drop_off_eq :
  cap_drop_off = String "#" (String " " (cap_drop +:+ sentinel_tail)).
Proof. reflexivity. Qed.

Lemma cap_drop_not_in_sentinel_head (k : nat) (y : string) :
  k < String.length (String " " cap_drop) ->
  Str.startswith (Str.drop k (String " " cap_drop)) (cap_drop_off +:+ y) = false.
Proof.
  intros Hk. do 16 (destruct k as [|k]; [reflexivity|]). simpl in Hk. lia.
Qed.

(** Where the active directive does not start, the sentinel does not start
    in the text with the directive commented out. *)
Lemma sentinel_starts_only_where_inserted (c : ascii) (s : string) :
  Str.startswith cap_drop (String c s) = false ->
  Str.startswith cap_drop_off (String c (Str.replace cap_drop cap_drop_off s)) = false.
Proof.
  intros E.
  destruct (Str.startswith cap_drop_off (String c (Str.replace cap_drop cap_drop_off s)))
    eqn:F; [exfalso|reflexivity].
  rewrite cap_drop_off_eq in F at 1. rewrite startswith_cons in F.
  apply andb_true_iff in F as [_ F].
  change (String " " (cap_drop +:+ sentinel_tail))
    with (String " " cap_drop +:+ sentinel_tail) in F.
  pose proof (startswith_app_l _ _ _ F) as G.
  apply (startswith_replace_inv cap_drop cap_drop_off eq_refl) in G;
    [|intros k y Hk; by apply cap_drop_not_in_sentinel_head].
  destruct (startswith_inv _ _ G) as [r ->].
  rewrite (app_cons " " cap_drop r) in F.
  rewrite (replace_nomatch cap_drop cap_drop_off eq_refl) in F by reflexivity.
  rewrite (replace_match cap_drop cap_drop_off eq_refl) in F.
  rewrite (app_cons " " cap_drop sentinel_tail), startswith_cons in F.
  apply andb_true_iff in F as [_ F].
  discriminate F.
Qed.

(** Commenting the directive out and restoring it gives the text back. *)
Lemma restore_after_comment (m : string) :
  Str.replace cap_drop_off cap_drop (Str.replace cap_drop cap_drop_off m) = m.
Proof.
  induction m as [| r IH | c s E IH] using (replace_ind cap_drop eq_refl).
  - reflexivity.
  - rewrite (replace_match cap_drop cap_drop_off eq_refl).
    rewrite (replace_match cap_drop_off cap_drop eq_refl). by rewrite IH.
  - rewrite (replace_nomatch cap_drop cap_drop_off eq_refl) by exact E.
    rewrite (replace_nomatch cap_drop_off cap_drop eq_refl)
      by (by apply sentinel_starts_only_where_inserted).
    by rewrite IH.
Qed.

Lemma sentinel_after_comment (m : string) :
  Str.contains cap_drop m = true ->
  Str.contains cap_drop_off (Str.replace cap_drop cap_drop_off m) = true.
Proof.
  induction m as [| r IH | c s E IH] using (replace_ind cap_drop eq_refl); intros H.
  - discriminate H.
  - rewrite (replace_match cap_drop cap_drop_off eq_refl).
    apply contains_startswith, startswith_app.
  - rewrite (replace_nomatch cap_drop cap_drop_off eq_refl) by exact E.
    rewrite contains_cons in H |- *. rewrite E in H. simpl in H.
    rewrite (IH H). apply orb_true_r.
Qed.

(** Equations of the primitive computations, for stepping through a run. *)
Lemma bind_eq {A B} (c : M A) (k : A -> M B) (h : host) (w : world) :
  bind c k h w =
    match c h w with
    | (Done a, w') => k a h w'
    | (Raised e, w') => (Raised e, w')
    end.
Proof. reflexivity. Qed.

Lemma ret_eq {A} (a : A) (h : host) (w : world) : ret a h w = (Done a, w).
Proof. reflexivity. Qed.

Lemma raise_eq {A} (e : exn) (h : host) (w : world) : @raise A e h w = (Raised e, w).
Proof. reflexivity. Qed.

Lemma print_eq (s : string) (h : host) (w : world) : print s h w = (Done tt, add_printed s w).
Proof. reflexivity. Qed.

Lemma try_except_eq {A} (c : M A) (k : exn -> M A) (h : host) (w : world) :
  try_except c k h w =
    match c h w with
    | (Raised e, w') => k e h w'
    | r => r
    end.
Proof. reflexivity. Qed.

Lemma os_path_exists_eq (p : string) (h : host) (w : world) :
  os_path_exists p h w = (Done (exists_in (files w) p), w).
Proof. reflexivity. Qed.

Lemma os_path_isfile_eq (p : string) (h : host) (w : world) :
  os_path_isfile p h w = (Done (isfile_in (files w) p), w).
Proof. reflexivity. Qed.

Lemma read_text_eq (p : string) (h : host) (w : world) :
  read_text p h w =
    match files w !! p with
    | Some (File c) => (Done c, w)
    | Some Dir => (Raised IsADirectoryError, w)
    | None => (Raised FileNotFoundError, w)
    end.
Proof.
  unfold read_text, bind, get_files. by destruct (files w !! p) as [[c|]|].
Qed.

Lemma write_text_over (p text old : string) (h : host) (w : world) :
  files w !! p = Some (File old) ->
  write_text p text h w = (Done tt, set_files (<[p := File text]> (files w)) w).
Proof. intros H. unfold write_text, bind, get_files, put_files. by rewrite H. Qed.

Lemma write_text_new (p text : string) (h : host) (w : world) :
  files w !! p = None ->
  create_check (files w) p = None ->
  write_text p text h w = (Done tt, set_files (<[p := File text]> (files w)) w).
Proof. intros H C. unfold write_text, bind, get_files, put_files. by rewrite H, C. Qed.

Ltac mred := cbv beta match.
Ltac mstep :=
  first [ rewrite bind_eq | rewrite try_except_eq ];
  repeat first [ rewrite print_eq | rewrite ret_eq | rewrite raise_eq
               | rewrite os_path_exists_eq | rewrite os_path_isfile_eq
               | rewrite read_text_eq ];
  mred.

(** What the patcher does, by the two conditions it tests. *)
Lemma check_and_fix_eq (manifest : string) (h : host) (w : world) :
  files w !! manifest_path = Some (File manifest) ->
  check_and_fix_docker_compose_for_searxng h w =
    if first_run (files w) && Str.contains cap_drop manifest then
      (Done tt,
       World (<[manifest_path := File (Str.replace cap_drop cap_drop_off manifest)]> (files w))
         (printed w ++
            ["First run detected for SearXNG. Temporarily removing 'cap_drop: - ALL' directive...";
             "Note: After the first run completes, re-add 'cap_drop: - ALL' for security."])
         (spawned w) (draws w))
    else if negb (first_run (files w)) && Str.contains cap_drop_off manifest then
      (Done tt,
       World (<[manifest_path := File (Str.replace cap_drop_off cap_drop manifest)]> (files w))
         (printed w ++
            ["SearXNG appears initialized. Re-enabling 'cap_drop: - ALL' directive for security..."])
         (spawned w) (draws w))
    else (Done tt, w).
Proof.
  intros Hm. unfold check_and_fix_docker_compose_for_searxng.
  change (path_join "searxng" "settings.yml") with settings_path.
  change "docker-compose.yml" with manifest_path.
  mstep. unfold exists_in at 1. rewrite Hm. cbn [negb].
  do 2 mstep. rewrite Hm. mred. do 2 mstep.
  assert (Hsig : (if exists_in (files w) settings_path
                  then try_except
                         (bind (read_text settings_path)
                            (fun sf => ret (Str.contains placeholder sf)))
                         (fun _ => ret false)
                  else ret false) h w = (Done (first_run (files w)), w)).
  { unfold exists_in, first_run.
    destruct (files w !! settings_path) as [[s|]|] eqn:Hs; [| |reflexivity].
    - do 2 mstep. rewrite Hs. mred. reflexivity.
    - do 2 mstep. rewrite Hs. mred. reflexivity. }
  rewrite Hsig. mred.
  destruct (first_run (files w)); cbn [andb negb].
  - destruct (Str.contains cap_drop manifest); [|destruct w; reflexivity].
    do 2 mstep. rewrite (write_text_over _ _ manifest) by exact Hm. mred.
    rewrite print_eq. unfold set_files, add_printed. cbn [files printed spawned draws].
    by rewrite <- app_assoc.
  - destruct (Str.contains cap_drop_off manifest); [|destruct w; reflexivity].
    mstep. rewrite (write_text_over _ _ manifest) by exact Hm. reflexivity.
Qed.

(** C5.  Let [docker-compose.yml] hold a text with the active directive.
    With the first-run signal true the patcher returns and rewrites the
    manifest with every active directive replaced by the commented
    sentinel, which then occurs in it.  With the signal false and a
    manifest in which the sentinel occurs, it returns and rewrites the
    manifest with every sentinel replaced by the active directive.  The
    second transition applied to the result of the first gives the
    original text back. *)
Theorem check_and_fix_round_trip (manifest : string) (h : host) (w : world) :
  files w !! "docker-compose.yml" = Some (File manifest) ->
  Str.contains cap_drop manifest = true ->
  first_run (files w) = true ->
  let commented := Str.replace cap_drop cap_drop_off manifest in
  ((check_and_fix_docker_compose_for_searxng h w).1 = Done tt
   /\ files (check_and_fix_docker_compose_for_searxng h w).2
      = <["docker-compose.yml" := File commented]> (files w)
   /\ Str.contains cap_drop_off commented = true)
  /\ (forall (m2 : string) (h2 : host) (w2 : world),
        files w2 !! "docker-compose.yml" = Some (File m2) ->
        Str.contains cap_drop_off m2 = true ->
        first_run (files w2) = false ->
        (check_and_fix_docker_compose_for_searxng h2 w2).1 = Done tt
        /\ files (check_and_fix_docker_compose_for_searxng h2 w2).2
           = <["docker-compose.yml" := File (Str.replace cap_drop_off cap_drop m2)]> (files w2))
  /\ (forall (h2 : host) (w2 : world),
        files w2 !! "docker-compose.yml" = Some (File commented) ->
        first_run (files w2) = false ->
        (check_and_fix_docker_compose_for_searxng h2 w2).1 = Done tt
        /\ files (check_and_fix_docker_compose_for_searxng h2 w2).2
           = <["docker-compose.yml" := File manifest]> (files w2)).
Proof.
  intros Hm Hc Hf commented.
  assert (Hs : Str.contains cap_drop_off commented = true)
    by (by apply sentinel_after_comment).
  assert (Hrestore : forall m2 h2 w2,
            files w2 !! "docker-compose.yml" = Some (File m2) ->
            Str.contains cap_drop_off m2 = true ->
            first_run (files w2) = false ->
            (check_and_fix_docker_compose_for_searxng h2 w2).1 = Done tt
            /\ files (check_and_fix_docker_compose_for_searxng h2 w2).2
               = <["docker-compose.yml" := File (Str.replace cap_drop_off cap_drop m2)]>
                   (files w2)).
  { intros m2 h2 w2 Hm2 Hs2 Hf2.
    rewrite (check_and_fix_eq m2) by exact Hm2. rewrite Hf2, Hs2. by split. }
  split; [|split].
  - rewrite (check_and_fix_eq manifest) by exact Hm. rewrite Hf, Hc. by repeat split.
  - exact Hrestore.
  - intros h2 w2 Hm2 Hf2.
    destruct (Hrestore commented h2 w2 Hm2 Hs Hf2) as [Hd Hfiles].
    split; [exact Hd|]. rewrite Hfiles. unfold commented.
    by rewrite restore_after_comment.
Qed.

Lemma check_and_fix_round_trip_witness :
  files world_first_run !! "docker-compose.yml"
    = Some (File "searxng: cap_drop: - ALL image: x")
  /\ files (check_and_fix_docker_compose_for_searxng quiet_host world_first_run).2
       !! "docker-compose.yml"
     = Some (File "searxng: # cap_drop: - ALL  # Temporarily commented out for first run image: x")
  /\ files (check_and_fix_docker_compose_for_searxng quiet_host world_after_first_run).2
       !! "docker-compose.yml"
     = Some (File "searxng: cap_drop: - ALL image: x").
Proof.
  destruct (check_and_fix_round_trip "searxng: cap_drop: - ALL image: x"
              quiet_host world_first_run eq_refl eq_refl eq_refl)
    as ((_ & Hfiles & _) & _ & Hback).
  split; [reflexivity|]. split.
  - rewrite Hfiles. reflexivity.
  - destruct (Hback quiet_host world_after_first_run eq_refl eq_refl) as [_ Hfiles2].
    rewrite Hfiles2. reflexivity.
Defined.

(** ** The secrets directory *)

Lemma entry_name_no_root (n : string) : entry_name n = true -> Str.startswith "/" n = false.
Proof.
  unfold entry_name. destruct n as [|c n]; [discriminate|].
  rewrite startswith_cons, startswith_empty, andb_true_r. cbn [Str.truthy Str.has_char andb].
  rewrite negb_true_iff, orb_false_iff. intros [H _].
  destruct (bool_decide ("/"%char = c)) eqn:E; [|reflexivity].
  apply bool_decide_eq_true_1 in E. subst c. discriminate H.
Qed.

Lemma path_join_secret (n : string) :
  Str.startswith "/" n = false -> path_join secrets_path n = secret_file n.
Proof. intros H. unfold path_join. rewrite H. reflexivity. Qed.

Lemma child_name_secret (n : string) :
  entry_name n = true -> child_name secrets_path (secret_file n) = Some n.
Proof.
  intros H. unfold child_name, secret_file.
  change (".secrets/" +:+ n) with ((secrets_path +:+ "/") +:+ n).
  rewrite startswith_app.
  change (String.length secrets_path + 1) with (String.length (secrets_path +:+ "/")).
  rewrite drop_app. fold (entry_name n). by rewrite H.
Qed.

Lemma child_name_inv (d p n : string) :
  child_name d p = Some n -> entry_name n = true /\ p = (d +:+ "/") +:+ n.
Proof.
  unfold child_name. destruct (Str.startswith (d +:+ "/") p) eqn:E; [|discriminate].
  destruct (startswith_inv _ _ E) as [r ->].
  replace (String.length d + 1) with (String.length (d +:+ "/"))
    by (rewrite length_app; reflexivity).
  rewrite drop_app. fold (entry_name r).
  destruct (entry_name r) eqn:F; [|discriminate]. intros [= ->]. by split.
Qed.

Lemma listdir_in_spec (f : gmap string node) (d n : string) :
  In n (listdir_in f d) <-> exists p, is_Some (f !! p) /\ child_name d p = Some n.
Proof.
  unfold listdir_in. rewrite <- list_elem_of_In, list_elem_of_omap. split.
  - intros ([p x] & Hin & Hc). apply elem_of_map_to_list in Hin. exists p. eauto.
  - intros (p & [x Hx] & Hc). exists (p, x). split; [by apply elem_of_map_to_list | exact Hc].
Qed.

Lemma isfile_in_lookup (f g : gmap string node) (p : string) :
  f !! p = g !! p -> isfile_in f p = isfile_in g p.
Proof. unfold isfile_in. by intros ->. Qed.

Lemma clear_step_lookup_ne (d : string) (f : gmap string node) (n p : string) :
  path_join d n <> p -> clear_step d f n !! p = f !! p.
Proof.
  intros H. unfold clear_step. destruct (isfile_in f (path_join d n)); [|reflexivity].
  by apply lookup_delete_ne.
Qed.

(** An entry that is not a plain file, or that the loop does not visit,
    is kept. *)
Lemma foldl_clear_keeps (d : string) (names : list string) (f : gmap string node)
    (p : string) :
  isfile_in f p = false \/ ~ In p (List.map (path_join d) names) ->
  foldl (clear_step d) f names !! p = f !! p.
Proof.
  revert f. induction names as [|n names IH]; intros f H; [reflexivity|].
  cbn [foldl].
  assert (Hstep : clear_step d f n !! p = f !! p).
  { destruct (decide (path_join d n = p)) as [E|E]; [|by apply clear_step_lookup_ne].
    destruct H as [H|H]; [|exfalso; apply H; left; exact E].
    unfold clear_step. rewrite E, H. reflexivity. }
  rewrite IH; [exact Hstep|].
  destruct H as [H|H].
  - left. by rewrite (isfile_in_lookup _ f).
  - right. intros Hin. apply H. right. exact Hin.
Qed.

(** A plain file that the loop visits is removed. *)
Lemma foldl_clear_removes (d : string) (names : list string) (f : gmap string node)
    (p : string) :
  isfile_in f p = true -> In p (List.map (path_join d) names) ->
  foldl (clear_step d) f names !! p = None.
Proof.
  revert f. induction names as [|n names IH]; intros f Hf Hin; [destruct Hin|].
  cbn [foldl]. destruct (decide (path_join d n = p)) as [E|E].
  - rewrite foldl_clear_keeps.
    + unfold clear_step. rewrite E, Hf. apply lookup_delete_eq.
    + left. unfold clear_step. rewrite E, Hf. unfold isfile_in.
      by rewrite lookup_delete_eq.
  - destruct Hin as [Hin|Hin]; [contradiction|].
    apply IH; [|exact Hin].
    rewrite (isfile_in_lookup _ f); [exact Hf|]. by apply clear_step_lookup_ne.
Qed.

Lemma listdir_paths (f : gmap string node) (n : string) :
  In n (listdir_in f secrets_path) -> path_join secrets_path n = secret_file n /\ entry_name n = true.
Proof.
  intros H. apply listdir_in_spec in H as (p & _ & Hc).
  apply child_name_inv in Hc as [He _].
  split; [|exact He]. by apply path_join_secret, entry_name_no_root.
Qed.

Section Cleared.
Variable f : gmap string node.
Hypothesis secrets_not_file : forall c, f !! secrets_path <> Some (File c).

Let f0 : gmap string node :=
  match f !! secrets_path with
  | None => <[secrets_path := Dir]> f
  | Some _ => f
  end.

Lemma cleared_base_dir : f0 !! secrets_path = Some Dir.
Proof using secrets_not_file.
  unfold f0. destruct (f !! secrets_path) as [[c|]|] eqn:E.
  - by destruct (secrets_not_file c).
  - exact E.
  - apply lookup_insert_eq.
Qed.

Lemma cleared_base_other (p : string) : p <> secrets_path -> f0 !! p = f !! p.
Proof using Type.
  clear secrets_not_file. intros H. unfold f0.
  destruct (f !! secrets_path); [reflexivity|]. by apply lookup_insert_ne.
Qed.

Lemma cleared_dir : cleared f !! secrets_path = Some Dir.
Proof using secrets_not_file.
  unfold cleared. fold f0. rewrite foldl_clear_keeps; [apply cleared_base_dir|].
  left. unfold isfile_in. by rewrite cleared_base_dir.
Qed.

(** No direct entry of the directory is a plain file. *)
Lemma cleared_no_file (n : string) :
  entry_name n = true -> isfile_in (cleared f) (secret_file n) = false.
Proof using Type.
  clear secrets_not_file. intros Hn. unfold cleared. fold f0.
  destruct (isfile_in f0 (secret_file n)) eqn:E.
  - unfold isfile_in at 1. rewrite foldl_clear_removes; [reflexivity | exact E |].
    apply in_map_iff. exists n. split.
    + by apply path_join_secret, entry_name_no_root.
    + apply listdir_in_spec. exists (secret_file n). split.
      * unfold isfile_in in E. destruct (f0 !! secret_file n); [eauto | discriminate].
      * by apply child_name_secret.
  - rewrite (isfile_in_lookup _ f0); [exact E|]. apply foldl_clear_keeps. by left.
Qed.

(** What is not a plain file directly in the directory is as before. *)
Lemma cleared_keeps (p : string) :
  p <> secrets_path ->
  isfile_in f p = false \/ child_name secrets_path p = None ->
  cleared f !! p = f !! p.
Proof using Type.
  clear secrets_not_file.
  intros Hp H. unfold cleared. fold f0. rewrite <- (cleared_base_other p Hp).
  apply foldl_clear_keeps. destruct H as [H|H].
  - left. rewrite (isfile_in_lookup _ f); [exact H | by apply cleared_base_other].
  - right. intros Hin. apply in_map_iff in Hin as (n & Hj & Hin).
    apply listdir_paths in Hin as [Hpath Hn]. rewrite Hpath in Hj. subst p.
    rewrite child_name_secret in H by exact Hn. discriminate H.
Qed.

End Cleared.

(** ** The secret extractor *)

Lemma os_listdir_eq (d : string) (h : host) (w : world) :
  os_listdir d h w =
    match files w !! d with
    | Some Dir => (Done (listdir_in (files w) d), w)
    | Some (File _) => (Raised NotADirectoryError, w)
    | None => (Raised FileNotFoundError, w)
    end.
Proof. unfold os_listdir, bind, get_files. by destruct (files w !! d) as [[c|]|]. Qed.

Lemma os_remove_file (p c : string) (h : host) (w : world) :
  files w !! p = Some (File c) ->
  os_remove p h w = (Done tt, set_files (delete p (files w)) w).
Proof. intros H. unfold os_remove, bind, get_files, put_files. by rewrite H. Qed.

Lemma set_files_id (w : world) : set_files (files w) w = w.
Proof. by destruct w. Qed.

Lemma for_each_clear_eq (d : string) (names : list string) (h : host) (w : world) :
  for_each names (prepare_env_clear d) h w =
    (Done tt, set_files (foldl (clear_step d) (files w) names) w).
Proof.
  revert w. induction names as [|n names IH]; intros w.
  - cbn [for_each foldl]. by rewrite ret_eq, set_files_id.
  - cbn [for_each foldl]. rewrite bind_eq. unfold prepare_env_clear at 1.
    rewrite bind_eq, os_path_isfile_eq. mred. unfold clear_step at 2.
    destruct (isfile_in (files w) (path_join d n)) eqn:E.
    + unfold isfile_in in E.
      destruct (files w !! path_join d n) as [[c|]|] eqn:F; try discriminate.
      rewrite (os_remove_file _ c) by exact F. mred. rewrite IH. reflexivity.
    + rewrite ret_eq. mred. apply IH.
Qed.

Lemma prepare_env_reaches_fill (h : host) (w : world) :
  (forall c, files w !! secrets_path <> Some (File c)) ->
  prepare_env h w = prepare_env_fill h (world_cleared w).
Proof.
  intros Hs. unfold prepare_env. fold secrets_path.
  rewrite bind_eq, os_path_exists_eq. mred. rewrite bind_eq.
  unfold exists_in, world_cleared, cleared.
  destruct (files w !! secrets_path) as [[c|]|] eqn:E.
  - by destruct (Hs c).
  - cbn [negb]. rewrite ret_eq. mred. do 2 mstep.
    rewrite os_listdir_eq. cbn [files add_printed]. rewrite E. mred.
    rewrite bind_eq, for_each_clear_eq. mred. reflexivity.
  - cbn [negb]. unfold os_mkdir. rewrite bind_eq. unfold get_files at 1. mred.
    rewrite E. change (create_check (files w) secrets_path) with (@None exn). mred.
    unfold put_files at 1. do 2 mstep.
    rewrite os_listdir_eq. cbn [files add_printed set_files].
    rewrite lookup_insert_eq. mred.
    rewrite bind_eq, for_each_clear_eq. mred. reflexivity.
Qed.

Lemma prepare_env_secrets_is_file (c : string) (h : host) (w : world) :
  files w !! secrets_path = Some (File c) ->
  prepare_env h w =
    (Raised NotADirectoryError, add_printed "Preparing secrets in .secrets..." w).
Proof.
  intros E. unfold prepare_env. fold secrets_path.
  rewrite bind_eq, os_path_exists_eq. mred. rewrite bind_eq.
  unfold exists_in. rewrite E. cbn [negb]. rewrite ret_eq. mred. do 2 mstep.
  rewrite os_listdir_eq. cbn [files add_printed]. rewrite E. reflexivity.
Qed.

Lemma cleared_env (f : gmap string node) : cleared f !! ".env" = f !! ".env".
Proof. apply cleared_keeps; [discriminate | by right]. Qed.

(** C8.  When [.env] does not exist, [prepare_env] raises, and nothing in
    the script catches it: [main] without the config-only flag ends with
    the exception.  If moreover the secrets path is not a plain
    file, the exception is [FileNotFoundError] from [open(env_path)], and
    the state it leaves is the one after the clearing loop: the secrets
    directory exists, none of its direct entries is a plain file any more,
    and every other entry of the file system is as before; nothing is put
    back. *)
Theorem prepare_env_missing_env_after_clear (h : host) (w : world) :
  files w !! ".env" = None ->
  (exists e w', prepare_env h w = (Raised e, w'))
  /\ (forall a, config a = false -> exists e w', main a h w = (Raised e, w'))
  /\ ((forall c, files w !! ".secrets" <> Some (File c)) ->
      exists w',
        prepare_env h w = (Raised FileNotFoundError, w')
        /\ files w' !! ".secrets" = Some Dir
        /\ (forall n, entry_name n = true -> isfile_in (files w') (secret_file n) = false)
        /\ (forall p, p <> ".secrets" ->
              isfile_in (files w) p = false \/ child_name ".secrets" p = None ->
              files w' !! p = files w !! p)).
Proof.
  intros He.
  assert (Hfill : (forall c, files w !! secrets_path <> Some (File c)) ->
            prepare_env h w = (Raised FileNotFoundError, world_cleared w)).
  { intros Hs. rewrite prepare_env_reaches_fill by exact Hs.
    unfold prepare_env_fill. rewrite bind_eq, read_text_eq.
    cbn [files world_cleared]. by rewrite cleared_env, He. }
  assert (Hraise : exists e w', prepare_env h w = (Raised e, w')).
  { destruct (files w !! secrets_path) as [[c|]|] eqn:E.
    - rewrite (prepare_env_secrets_is_file c) by exact E. eauto.
    - rewrite Hfill; [eauto | done].
    - rewrite Hfill; [eauto | done]. }
  split; [exact Hraise|]. split.
  - intros a Ha. unfold main. rewrite Ha, bind_eq.
    destruct Hraise as (e & w' & ->). eauto.
  - intros Hs. exists (world_cleared w). split; [by apply Hfill|].
    cbn [files world_cleared]. split; [by apply cleared_dir|]. split.
    + intros n Hn. by apply cleared_no_file.
    + intros p Hp H. by apply cleared_keeps.
Qed.

Lemma prepare_env_missing_env_after_clear_witness :
  files world_without_env !! ".env" = None
  /\ isfile_in (files world_without_env) (secret_file "db_password") = true
  /\ exists w',
       prepare_env quiet_host world_without_env = (Raised FileNotFoundError, w')
       /\ isfile_in (files w') (secret_file "db_password") = false.
Proof.
  split; [reflexivity|]. split; [reflexivity|].
  destruct (prepare_env_missing_env_after_clear quiet_host world_without_env eq_refl)
    as (_ & _ & H).
  destruct H as (w' & Hrun & _ & Hclear & _).
  - intros c. discriminate.
  - exists w'. split; [exact Hrun|]. by apply Hclear.
Defined.

(** ** Lines without a separator *)

Lemma split1_without_sep (sep : ascii) (s : string) :
  Str.has_char sep s = false -> Str.split1 sep s = [s].
Proof.
  induction s as [|c s IH]; intros H; [reflexivity|].
  cbn [Str.has_char] in H. apply orb_false_iff in H as [Hc Hs].
  cbn [Str.split1]. rewrite Hc, (IH Hs). reflexivity.
Qed.

Lemma for_each_raises {A} (body : A -> M unit) (x : A) (l : list A) :
  In x l ->
  (forall h w, exists e w', body x h w = (Raised e, w')) ->
  forall h w, exists e w', for_each l body h w = (Raised e, w').
Proof.
  intros Hin Hx. induction l as [|a l IH]; intros h w; [destruct Hin|].
  cbn [for_each]. rewrite bind_eq.
  destruct Hin as [->|Hin].
  - destruct (Hx h w) as (e & w' & ->). eauto.
  - destruct (body a h w) as [[[]|e] w']; [by apply IH | eauto].
Qed.

Lemma for_each_skip {A} (body : A -> M unit) (x : A) (before after : list A) :
  (forall h w, body x h w = (Done tt, w)) ->
  forall h w, for_each (before ++ x :: after) body h w = for_each (before ++ after) body h w.
Proof.
  intros Hx. induction before as [|a before IH]; intros h w.
  - cbn [app for_each]. by rewrite bind_eq, Hx.
  - cbn [app for_each]. rewrite !bind_eq.
    destruct (body a h w) as [[[]|e] w']; [apply IH | reflexivity].
Qed.

(** C9.  Take a line without [=].  If it holds a marker, the loop body
    raises [ValueError] at the unpacking of the one-element split and
    changes nothing, and [prepare_env] on any environment file that has
    this line among its non-blank, non-comment lines ends with an
    exception.  If it holds no marker, the loop body returns without any
    effect, so the loop over the lines goes on as if the line were not
    there. *)
Theorem prepare_env_line_without_equals (line : string) :
  Str.has_char "=" line = false ->
  (has_marker line = true ->
     (forall d h w, prepare_env_line d line h w = (Raised ValueError, w))
     /\ (forall content h w,
           files w !! ".env" = Some (File content) ->
           In line (env_lines content) ->
           exists e w', prepare_env h w = (Raised e, w')))
  /\ (has_marker line = false ->
     (forall d h w, prepare_env_line d line h w = (Done tt, w))
     /\ (forall d before after h w,
           for_each (before ++ line :: after) (prepare_env_line d) h w
           = for_each (before ++ after) (prepare_env_line d) h w)).
Proof.
  intros Heq. split; intros Hm.
  - assert (Hline : forall d h w, prepare_env_line d line h w = (Raised ValueError, w)).
    { intros d h w. unfold prepare_env_line.
      rewrite Hm, (split1_without_sep _ _ Heq). reflexivity. }
    split; [exact Hline|]. intros content h w Hf Hin.
    destruct (files w !! secrets_path) as [[c|]|] eqn:E.
    + rewrite (prepare_env_secrets_is_file c) by exact E. eauto.
    + rewrite prepare_env_reaches_fill by (intros c; by rewrite E).
      unfold prepare_env_fill. rewrite bind_eq, read_text_eq.
      cbn [files world_cleared]. rewrite cleared_env, Hf. mred. rewrite bind_eq.
      destruct (for_each_raises (prepare_env_line secrets_path) line _ Hin
                  (fun h w => ex_intro _ ValueError (ex_intro _ w (Hline _ h w)))
                  h (world_cleared w)) as (e & w' & ->).
      eauto.
    + rewrite prepare_env_reaches_fill by (intros c; by rewrite E).
      unfold prepare_env_fill. rewrite bind_eq, read_text_eq.
      cbn [files world_cleared]. rewrite cleared_env, Hf. mred. rewrite bind_eq.
      destruct (for_each_raises (prepare_env_line secrets_path) line _ Hin
                  (fun h w => ex_intro _ ValueError (ex_intro _ w (Hline _ h w)))
                  h (world_cleared w)) as (e & w' & ->).
      eauto.
  - assert (Hline : forall d h w, prepare_env_line d line h w = (Done tt, w)).
    { intros d h w. unfold prepare_env_line. by rewrite Hm. }
    split; [exact Hline|]. intros d before after h w.
    by apply for_each_skip.
Qed.

Lemma prepare_env_line_without_equals_witness :
  Str.has_char "=" "API_KEY" = false
  /\ prepare_env_line ".secrets" "API_KEY" quiet_host world_without_env
     = (Raised ValueError, world_without_env)
  /\ Str.has_char "=" "HOSTNAME" = false
  /\ prepare_env_line ".secrets" "HOSTNAME" quiet_host world_without_env
     = (Done tt, world_without_env).
Proof.
  split; [reflexivity|]. split.
  - apply (prepare_env_line_without_equals "API_KEY"); reflexivity.
  - split; [reflexivity|].
    apply (prepare_env_line_without_equals "HOSTNAME"); reflexivity.
Defined.

(** ** Which secrets files are written *)

Lemma has_char_app (c : ascii) (a b : string) :
  Str.has_char c (a +:+ b) = Str.has_char c a || Str.has_char c b.
Proof.
  induction a as [|x a IH]; [reflexivity|].
  rewrite app_cons. cbn [Str.has_char]. by rewrite IH, orb_assoc.
Qed.

Lemma rsplit_slash_none (n : string) :
  Str.has_char "/" n = false -> rsplit_slash n = None.
Proof.
  induction n as [|c n IH]; intros H; [reflexivity|].
  cbn [Str.has_char] in H. apply orb_false_iff in H as [Hc Hn].
  cbn [rsplit_slash]. by rewrite (IH Hn), Hc.
Qed.

Lemma rsplit_slash_app (d n : string) :
  Str.has_char "/" n = false -> rsplit_slash (d +:+ String "/" n) = Some (d, n).
Proof.
  intros H. induction d as [|c d IH].
  - rewrite app_empty. cbn [rsplit_slash]. by rewrite (rsplit_slash_none _ H).
  - rewrite app_cons. cbn [rsplit_slash]. by rewrite IH.
Qed.

Lemma valid_name_inv (n : string) :
  valid_name n = true ->
  Str.truthy n = true /\ n <> "." /\ n <> ".." /\ Str.has_char "/" n = false
  /\ Str.has_char "000" n = false /\ (String.length n <=? 255) = true.
Proof.
  unfold valid_name. rewrite !andb_true_iff, !negb_true_iff.
  intros (((((H1 & H2) & H3) & H4) & H5) & H6).
  apply bool_decide_eq_false_1 in H2, H3. done.
Qed.

Lemma valid_name_entry (n : string) : valid_name n = true -> entry_name n = true.
Proof.
  intros H. apply valid_name_inv in H as (H1 & _ & _ & H4 & _).
  unfold entry_name. by rewrite H1, H4.
Qed.

Lemma create_check_secret (f : gmap string node) (n : string) :
  valid_name n = true ->
  f !! secrets_path = Some Dir ->
  create_check f (secret_file n) = None.
Proof.
  intros Hn Hd. apply valid_name_inv in Hn as (H1 & H2 & H3 & H4 & H5 & H6).
  unfold create_check, secret_file.
  rewrite has_char_app, H5.
  change (Str.has_char "000" ".secrets/") with false. cbn [orb].
  unfold dir_base.
  change (".secrets/" +:+ n) with (secrets_path +:+ String "/" n).
  rewrite (rsplit_slash_app _ _ H4). cbn [fst snd].
  unfold name_check.
  change (Str.truthy (secrets_path +:+ String "/" n)) with true. cbn [negb].
  rewrite H1, H6. cbn [negb orb].
  rewrite !bool_decide_eq_false_2 by assumption. cbn [orb].
  unfold parent_check. by rewrite Hd.
Qed.

Lemma secret_file_not_dir_path (n : string) : secret_file n <> secrets_path.
Proof. unfold secret_file, secrets_path. intros H. cbv in H. discriminate H. Qed.

Lemma secret_file_inj (n m : string) : secret_file n = secret_file m -> n = m.
Proof. unfold secret_file. intros H. cbv [String.append] in H. by injection H. Qed.

(** One line with a marker, a separator and a key that can name a file. *)
Lemma prepare_env_line_writes (line k v : string) (h : host) (w : world) :
  has_marker line = true ->
  Str.split1 "=" line = [k; v] ->
  valid_name (Str.lower k) = true ->
  files w !! secrets_path = Some Dir ->
  files w !! secret_file (Str.lower k) <> Some Dir ->
  prepare_env_line secrets_path line h w =
    (Done tt, set_files (<[secret_file (Str.lower k) := File (unquote v)]> (files w)) w).
Proof.
  intros Hm Hs Hv Hd Hn. unfold prepare_env_line. rewrite Hm, Hs. cbn [negb].
  rewrite path_join_secret by (by apply entry_name_no_root, valid_name_entry).
  destruct (files w !! secret_file (Str.lower k)) as [[c|]|] eqn:E.
  - by apply (write_text_over _ _ c).
  - by destruct Hn.
  - apply write_text_new; [exact E | by apply create_check_secret].
Qed.

Lemma set_files_set_files (f g : gmap string node) (w : world) :
  set_files f (set_files g w) = set_files f w.
Proof. reflexivity. Qed.

(** The loop over the lines: it returns, every line that yields an entry
    leaves a plain file for it, and every path is as before or holds what
    a line yielded. *)
Lemma fill_loop (l : list string) (h : host) (w : world) :
  files w !! secrets_path = Some Dir ->
  (forall line, In line l -> well_formed_line (files w) line) ->
  exists f',
    for_each l (prepare_env_line secrets_path) h w = (Done tt, set_files f' w)
    /\ f' !! secrets_path = Some Dir
    /\ (forall line n c, In line l -> yields line n c ->
          isfile_in f' (secret_file n) = true)
    /\ (forall p, f' !! p = files w !! p
                  \/ exists line n c, In line l /\ yields line n c
                                      /\ p = secret_file n /\ f' !! p = Some (File c)).
Proof.
  revert w. induction l as [|a l IH]; intros w Hd Hwf.
  - exists (files w). cbn [for_each]. rewrite ret_eq, set_files_id.
    repeat split; [exact Hd | intros ? ? ? [] | by left].
  - cbn [for_each]. rewrite bind_eq.
    destruct (has_marker a) eqn:Hm.
    + destruct (Hwf a (or_introl eq_refl) Hm) as (k & v & Hs & Hv & Hn).
      rewrite (prepare_env_line_writes a k v) by assumption. mred.
      set (p0 := secret_file (Str.lower k)).
      set (w1 := set_files (<[p0 := File (unquote v)]> (files w)) w).
      assert (Hya : yields a (Str.lower k) (unquote v)).
      { split; [exact Hm|]. exists k, v. done. }
      destruct (IH w1) as (f' & Hrun & Hd' & Hfile & Hfrom).
      { cbn [files w1 set_files]. rewrite lookup_insert_ne; [exact Hd|].
        apply secret_file_not_dir_path. }
      { intros line Hin Hm'. destruct (Hwf line (or_intror Hin) Hm') as (k' & v' & ? & ? & Hn').
        exists k', v'. repeat split; try assumption.
        cbn [files w1 set_files]. rewrite lookup_insert.
        destruct (decide (p0 = secret_file (Str.lower k'))); [discriminate | exact Hn']. }
      exists f'. rewrite Hrun. split; [reflexivity|]. split; [exact Hd'|]. split.
      * intros line n c [<-|Hin] Hy; [|by apply (Hfile line n c)].
        destruct Hy as (_ & k' & v' & Hs' & <- & <-).
        rewrite Hs in Hs'. injection Hs' as <- <-. fold p0.
        destruct (Hfrom p0) as [E|(line' & n' & c' & _ & _ & _ & E)].
        -- unfold isfile_in. rewrite E. cbn [files w1 set_files].
           by rewrite lookup_insert_eq.
        -- unfold isfile_in. by rewrite E.
      * intros p. destruct (Hfrom p) as [E|(line' & n' & c' & Hin & Hy & Hp & E)].
        -- cbn [files w1 set_files] in E. rewrite lookup_insert in E.
           destruct (decide (p0 = p)) as [<-|Hne]; [|by left].
           right. exists a, (Str.lower k), (unquote v). split; [by left|]. done.
        -- right. exists line', n', c'. split; [by right|]. done.
    + assert (Hskip : prepare_env_line secrets_path a h w = (Done tt, w)).
      { unfold prepare_env_line. by rewrite Hm. }
      rewrite Hskip. mred.
      destruct (IH w Hd) as (f' & Hrun & Hd' & Hfile & Hfrom).
      { intros line Hin. apply Hwf. by right. }
      exists f'. split; [exact Hrun|]. split; [exact Hd'|]. split.
      * intros line n c [<-|Hin] Hy; [|by apply (Hfile line n c)].
        destruct Hy as [Hy _]. congruence.
      * intros p. destruct (Hfrom p) as [E|(line' & n' & c' & Hin & Hy & Hp & E)]; [by left|].
        right. exists line', n', c'. split; [by right|]. done.
Qed.

Lemma foldl_clear_lookup_some (d : string) (names : list string)
    (f : gmap string node) (p : string) (x : node) :
  foldl (clear_step d) f names !! p = Some x -> f !! p = Some x.
Proof.
  revert f. induction names as [|n names IH]; intros f H; [exact H|].
  cbn [foldl] in H. apply IH in H. unfold clear_step in H.
  destruct (isfile_in f (path_join d n)); [|exact H].
  by apply lookup_delete_Some in H as [_ H].
Qed.

Lemma cleared_lookup_some (f : gmap string node) (p : string) (x : node) :
  p <> secrets_path -> cleared f !! p = Some x -> f !! p = Some x.
Proof.
  intros Hp H. unfold cleared in H. apply foldl_clear_lookup_some in H.
  destruct (f !! secrets_path); [exact H|]. by rewrite lookup_insert_ne in H.
Qed.

(** C1, as the code has it.  Let [.env] hold [content], let the secrets
    path not be a plain file, and let every non-blank, non-comment line
    that holds a marker have a separator and a key whose lower-cased form
    can name a file and does not name a directory.  Then [prepare_env]
    returns, and the plain files directly in the secrets directory are
    exactly the entries yielded by the lines that hold a marker anywhere in
    their text, key or value: a file exists for a name if and only if a
    line with a marker has that lower-cased key, and its content is the
    unquoted value of such a line.  A line without any marker yields no
    file. *)
Theorem prepare_env_files_iff_marker_in_line
    (content : string) (h : host) (w : world) :
  files w !! ".env" = Some (File content) ->
  (forall c, files w !! ".secrets" <> Some (File c)) ->
  (forall line, In line (env_lines content) -> well_formed_line (files w) line) ->
  exists w',
    prepare_env h w = (Done tt, w')
    /\ (forall n, entry_name n = true ->
          (isfile_in (files w') (secret_file n) = true
           <-> exists line c, In line (env_lines content) /\ yields line n c))
    /\ (forall n c, entry_name n = true ->
          files w' !! secret_file n = Some (File c) ->
          exists line, In line (env_lines content) /\ yields line n c).
Proof.
  intros He Hs Hwf.
  rewrite prepare_env_reaches_fill by exact Hs.
  unfold prepare_env_fill. rewrite bind_eq, read_text_eq.
  cbn [files world_cleared]. rewrite cleared_env, He. mred. rewrite bind_eq.
  destruct (fill_loop (env_lines content) h (world_cleared w))
    as (f' & Hrun & Hd & Hfile & Hfrom).
  { cbn [files world_cleared]. by apply cleared_dir. }
  { intros line Hin Hm. destruct (Hwf line Hin Hm) as (k & v & Hsp & Hv & Hn).
    exists k, v. repeat split; try assumption.
    cbn [files world_cleared]. intros Hdir. apply Hn.
    apply cleared_lookup_some in Hdir; [exact Hdir | apply secret_file_not_dir_path]. }
  rewrite Hrun. mred. rewrite print_eq.
  eexists. split; [reflexivity|].
  cbn [files add_printed set_files].
  assert (Hcontent : forall n c, entry_name n = true ->
            f' !! secret_file n = Some (File c) ->
            exists line, In line (env_lines content) /\ yields line n c).
  { intros n c Hn E.
    destruct (Hfrom (secret_file n)) as [E'|(line & n' & c' & Hin & Hy & Hp & E')].
    - cbn [files world_cleared] in E'. rewrite E in E'.
      pose proof (cleared_no_file (files w) n Hn) as Hno.
      unfold isfile_in in Hno. rewrite <- E' in Hno. discriminate Hno.
    - apply secret_file_inj in Hp. subst n'. rewrite E in E'. injection E' as ->.
      by exists line. }
  split; [|exact Hcontent].
  intros n Hn. split.
  - unfold isfile_in. destruct (f' !! secret_file n) as [[c|]|] eqn:E; try discriminate.
    intros _. destruct (Hcontent n c Hn E) as (line & Hin & Hy). by exists line, c.
  - intros (line & c & Hin & Hy). by apply (Hfile line n c).
Qed.

(** C1, as stated, fails: the key [HOST] holds no marker, the value
    [MY_KEY_SERVER] holds [KEY], and [prepare_env] writes the file [host]. *)
Lemma prepare_env_marker_in_value_counterexample :
  files world_marker_in_value !! ".env"
    = Some (File ("DB_PASSWORD='secr3t'" +:+ line_feed +:+ "HOST=MY_KEY_SERVER"
                  +:+ line_feed +:+ "# comment" +:+ line_feed +:+ "PORT=8080"))
  /\ env_lines ("DB_PASSWORD='secr3t'" +:+ line_feed +:+ "HOST=MY_KEY_SERVER"
                +:+ line_feed +:+ "# comment" +:+ line_feed +:+ "PORT=8080")
     = ["DB_PASSWORD='secr3t'"; "HOST=MY_KEY_SERVER"; "PORT=8080"]
  /\ Str.split1 "=" "HOST=MY_KEY_SERVER" = ["HOST"; "MY_KEY_SERVER"]
  /\ has_marker "HOST" = false
  /\ (prepare_env quiet_host world_marker_in_value).1 = Done tt
  /\ files (prepare_env quiet_host world_marker_in_value).2 !! ".secrets/host"
     = Some (File "MY_KEY_SERVER")
  /\ files (prepare_env quiet_host world_marker_in_value).2 !! ".secrets/port" = None.
Proof. repeat split; vm_compute; reflexivity. Qed.

Lemma prepare_env_files_iff_marker_in_line_witness :
  files world_marker_in_value !! ".env"
    = Some (File ("DB_PASSWORD='secr3t'" +:+ line_feed +:+ "HOST=MY_KEY_SERVER"
                  +:+ line_feed +:+ "# comment" +:+ line_feed +:+ "PORT=8080"))
  /\ exists w',
       prepare_env quiet_host world_marker_in_value = (Done tt, w')
       /\ isfile_in (files w') (secret_file "db_password") = true
       /\ isfile_in (files w') (secret_file "port") = false.
Proof.
  split; [reflexivity|].
  destruct (prepare_env_files_iff_marker_in_line
              ("DB_PASSWORD='secr3t'" +:+ line_feed +:+ "HOST=MY_KEY_SERVER"
               +:+ line_feed +:+ "# comment" +:+ line_feed +:+ "PORT=8080")
              quiet_host world_marker_in_value eq_refl)
    as (w' & Hrun & Hiff & _).
  - intros c. discriminate.
  - intros line Hin Hm.
    change (In line ["DB_PASSWORD='secr3t'"; "HOST=MY_KEY_SERVER"; "PORT=8080"]) in Hin.
    destruct Hin as [<-|[<-|[<-|[]]]].
    + exists "DB_PASSWORD", "'secr3t'". repeat split. discriminate.
    + exists "HOST", "MY_KEY_SERVER". repeat split. discriminate.
    + discriminate Hm.
  - exists w'. split; [exact Hrun|]. split.
    + apply Hiff; [reflexivity|].
      exists "DB_PASSWORD='secr3t'", "secr3t". split; [left; reflexivity|].
      split; [reflexivity|]. exists "DB_PASSWORD", "'secr3t'". repeat split.
    + destruct (isfile_in (files w') (secret_file "port")) eqn:E; [|reflexivity].
      apply Hiff in E as (line & c & Hin & Hy); [|reflexivity].
      change (In line ["DB_PASSWORD='secr3t'"; "HOST=MY_KEY_SERVER"; "PORT=8080"]) in Hin.
      destruct Hy as (Hm & k & v & Hsp & Hk & _).
      destruct Hin as [<-|[<-|[<-|[]]]]; vm_compute in Hsp; vm_compute in Hm;
        try discriminate Hm; injection Hsp as <- <-; discriminate Hk.
Defined.

(** * Further properties of the script *)

(** ** The string methods *)

(** [split(sep, 1)] cuts at the first separator. *)
Lemma split1_cuts_at_first_sep (sep : ascii) (s : string) :
  (Str.has_char sep s = false /\ Str.split1 sep s = [s])
  \/ (exists a b, Str.split1 sep s = [a; b]
                  /\ s = a +:+ String sep b
                  /\ Str.has_char sep a = false).
Proof.
  induction s as [|c s IH].
  - left. by split.
  - cbn [Str.split1 Str.has_char].
    destruct (bool_decide (c = sep)) eqn:E.
    + right. apply bool_decide_eq_true_1 in E. subst c.
      exists EmptyString, s. by repeat split.
    + destruct IH as [[Hn Hs]|(a & b & Hs & -> & Ha)].
      * left. rewrite Hs, Hn. by split.
      * right. rewrite Hs. exists (String c a), b. repeat split.
        cbn [Str.has_char]. by rewrite E, Ha.
Qed.

Lemma contains_empty (s : string) : Str.contains EmptyString s = true.
Proof. destruct s; reflexivity. Qed.

(** [replace] changes nothing in a text in which [old] does not occur. *)
Lemma replace_absent_is_identity (old new s : string) :
  Str.contains old s = false -> Str.replace old new s = s.
Proof.
  destruct (Str.truthy old) eqn:Ho.
  - induction s as [| r IH | c s E IH] using (replace_ind old Ho); intros H.
    + by apply replace_nil.
    + rewrite contains_startswith in H; [discriminate | apply startswith_app].
    + rewrite (replace_nomatch old new Ho) by exact E.
      rewrite contains_cons, E in H. cbn [orb] in H. by rewrite (IH H).
  - destruct old; [|discriminate]. intros H. by rewrite contains_empty in H.
Qed.

Lemma lstrip_by_head (f : ascii -> bool) (s : string) (c : ascii) (r : string) :
  Str.lstrip_by f s = String c r -> f c = false.
Proof.
  induction s as [|x s IH]; [discriminate|].
  cbn [Str.lstrip_by]. destruct (f x) eqn:E; [exact IH|].
  by intros [= <- <-].
Qed.

Lemma rstrip_by_cons (f : ascii -> bool) (c : ascii) (s : string) :
  f c = false -> Str.rstrip_by f (String c s) = String c (Str.rstrip_by f s).
Proof.
  intros H. cbn [Str.rstrip_by]. destruct (Str.rstrip_by f s); [by rewrite H | reflexivity].
Qed.

Lemma rstrip_by_last (f : ascii -> bool) (s : string) (c : ascii) :
  Str.last_char (Str.rstrip_by f s) = Some c -> f c = false.
Proof.
  induction s as [|x s IH]; [discriminate|].
  cbn [Str.rstrip_by]. destruct (Str.rstrip_by f s) as [|d r] eqn:E.
  - destruct (f x) eqn:F; [discriminate|]. by intros [= <-].
  - exact IH.
Qed.

Lemma rstrip_by_fixed (f : ascii -> bool) (s : string) :
  (forall c, Str.last_char s = Some c -> f c = false) -> Str.rstrip_by f s = s.
Proof.
  induction s as [|x s IH]; intros H; [reflexivity|].
  cbn [Str.rstrip_by]. destruct s as [|d s'].
  - cbn [Str.rstrip_by]. by rewrite (H x eq_refl).
  - rewrite IH; [reflexivity|]. intros c Hc. by apply H.
Qed.

(** What [strip] returns starts and ends with a character that is kept,
    and stripping it again changes nothing. *)
Lemma strip_by_trims_both_ends (f : ascii -> bool) (s : string) :
  (forall c r, Str.strip_by f s = String c r -> f c = false)
  /\ (forall c, Str.last_char (Str.strip_by f s) = Some c -> f c = false)
  /\ Str.strip_by f (Str.strip_by f s) = Str.strip_by f s.
Proof.
  assert (Hhead : forall c r, Str.strip_by f s = String c r -> f c = false).
  { unfold Str.strip_by. intros c r H.
    destruct (Str.lstrip_by f s) as [|x t] eqn:E; [discriminate|].
    pose proof (lstrip_by_head f s x t E) as Hx.
    rewrite rstrip_by_cons in H by exact Hx. injection H as <- _. exact Hx. }
  assert (Hlast : forall c, Str.last_char (Str.strip_by f s) = Some c -> f c = false).
  { intros c H. by apply (rstrip_by_last f (Str.lstrip_by f s)). }
  split; [exact Hhead|]. split; [exact Hlast|].
  unfold Str.strip_by at 1.
  assert (Hl : Str.lstrip_by f (Str.strip_by f s) = Str.strip_by f s).
  { destruct (Str.strip_by f s) as [|c r] eqn:E; [reflexivity|].
    cbn [Str.lstrip_by]. by rewrite (Hhead c r eq_refl). }
  rewrite Hl. by apply rstrip_by_fixed.
Qed.

Lemma splitlines_cons (c : ascii) (s : string) :
  Str.splitlines (String c s) =
    if Str.is_linebreak c then
      EmptyString ::
        Str.splitlines
          (match s with
           | String d s' =>
               if bool_decide (c = "013"%char) && bool_decide (d = "010"%char)
               then s' else s
           | EmptyString => s
           end)
    else Str.push_char c (Str.splitlines s).
Proof.
  destruct (ascii_dec c "013") as [->|Hc].
  - destruct s as [|d s']; [reflexivity|].
    destruct (ascii_dec d "010") as [->|Hd]; [reflexivity|].
    rewrite (bool_decide_eq_false_2 (d = "010"%char)) by exact Hd.
    destruct d as [[] [] [] [] [] [] [] []]; try reflexivity. by destruct Hd.
  - rewrite (bool_decide_eq_false_2 (c = "013"%char)) by exact Hc.
    assert (Hs : match s with String d s' => if false && bool_decide (d = "010"%char) then s' else s
                            | EmptyString => s end = s) by (by destruct s).
    rewrite Hs.
    destruct c as [[] [] [] [] [] [] [] []]; try reflexivity. by destruct Hc.
Qed.

(** No line that [splitlines] returns holds a line boundary. *)
Lemma splitlines_lines_have_no_linebreak (s line : string) :
  In line (Str.splitlines s) -> no_linebreak line = true.
Proof.
  remember (String.length s) as n eqn:Hn. revert s line Hn.
  induction n as [n IH] using lt_wf_ind. intros s line Hn Hin.
  destruct s as [|c s]; [destruct Hin|].
  rewrite splitlines_cons in Hin. destruct (Str.is_linebreak c) eqn:Hc.
  - destruct Hin as [<-|Hin]; [reflexivity|].
    eapply IH; [|reflexivity|exact Hin]. rewrite Hn.
    destruct s as [|d s']; [simpl; lia|].
    destruct (bool_decide (c = "013"%char) && bool_decide (d = "010"%char)); simpl; lia.
  - unfold Str.push_char in Hin.
    destruct (Str.splitlines s) as [|l ls] eqn:E.
    + destruct Hin as [<-|[]]. unfold no_linebreak. cbn [all_chars]. by rewrite Hc.
    + destruct Hin as [<-|Hin].
      * unfold no_linebreak. cbn [all_chars]. rewrite Hc. cbn [negb andb].
        change (no_linebreak l = true).
        apply (IH (String.length s)) with (s := s);
          [rewrite Hn; simpl; lia | reflexivity|].
        rewrite E. by left.
      * apply (IH (String.length s)) with (s := s);
          [rewrite Hn; simpl; lia | reflexivity|].
        rewrite E. by right.
Qed.

(** X7.  [secrets.token_hex(n)] returns [2 n] hexadecimal digits, whatever the
    entropy; it uses one draw and touches nothing else. *)
Theorem secrets_token_hex_digits (n : nat) (h : host) (w : world) :
  exists token,
    secrets_token_hex n h w
      = (Done token, World (files w) (printed w) (spawned w) (S (draws w)))
    /\ String.length token = 2 * n
    /\ all_chars is_hex token = true.
Proof.
  eexists. split; [reflexivity|]. split.
  - by rewrite hexlify_length, length_map, length_seq.
  - apply hexlify_is_hex.
Qed.

(** ** The secret extractor as a function of the files *)

Lemma yields_line_entry (line n c : string) :
  yields line n c <-> line_entry line = Some (n, c).
Proof.
  unfold yields, line_entry. split.
  - intros (Hm & k & v & Hs & <- & <-). by rewrite Hm, Hs.
  - destruct (has_marker line); [|discriminate].
    destruct (Str.split1 "=" line) as [|k [|v [|? ?]]]; try discriminate.
    intros [= <- <-]. split; [reflexivity|]. by exists k, v.
Qed.

Lemma well_formed_line_entry (f : gmap string node) (line n c : string) :
  well_formed_line f line -> line_entry line = Some (n, c) ->
  valid_name n = true /\ f !! secret_file n <> Some Dir.
Proof.
  intros Hwf He. apply yields_line_entry in He as (Hm & k & v & Hs & <- & <-).
  destruct (Hwf Hm) as (k' & v' & Hs' & Hv & Hn).
  rewrite Hs in Hs'. injection Hs' as <- <-. by split.
Qed.

Lemma well_formed_line_insert (f : gmap string node) (line n c : string) :
  well_formed_line f line -> well_formed_line (<[secret_file n := File c]> f) line.
Proof.
  intros Hwf Hm. destruct (Hwf Hm) as (k & v & Hs & Hv & Hn).
  exists k, v. repeat split; try assumption.
  rewrite lookup_insert. by destruct (decide (secret_file n = secret_file (Str.lower k))).
Qed.

Lemma for_each_fill (l : list string) (h : host) (w : world) :
  files w !! secrets_path = Some Dir ->
  (forall line, In line l -> well_formed_line (files w) line) ->
  for_each l (prepare_env_line secrets_path) h w = (Done tt, set_files (fill (files w) l) w).
Proof.
  revert w. induction l as [|a l IH]; intros w Hd Hwf.
  - cbn [for_each fill foldl]. by rewrite ret_eq, set_files_id.
  - cbn [for_each fill foldl]. rewrite bind_eq. unfold fill_step at 2, line_entry.
    destruct (has_marker a) eqn:Hm.
    + destruct (Hwf a (or_introl eq_refl) Hm) as (k & v & Hs & Hv & Hn).
      rewrite (prepare_env_line_writes a k v) by assumption. mred. rewrite Hs.
      rewrite IH.
      * reflexivity.
      * cbn [files set_files]. rewrite lookup_insert_ne; [exact Hd|].
        apply secret_file_not_dir_path.
      * intros line Hin. cbn [files set_files].
        apply well_formed_line_insert, Hwf. by right.
    + unfold prepare_env_line. rewrite Hm. cbn [negb]. rewrite ret_eq. mred.
      apply IH; [exact Hd|]. intros line Hin. apply Hwf. by right.
Qed.

Lemma fill_app (f : gmap string node) (l1 l2 : list string) :
  fill f (l1 ++ l2) = fill (fill f l1) l2.
Proof. unfold fill. apply foldl_app. Qed.

Lemma fill_lookup_other (l : list string) (f : gmap string node) (p : string) :
  (forall line n c, In line l -> line_entry line = Some (n, c) -> secret_file n <> p) ->
  fill f l !! p = f !! p.
Proof.
  revert f. induction l as [|a l IH]; intros f H; [reflexivity|].
  cbn [fill foldl]. fold (fill (fill_step f a) l). rewrite IH.
  - unfold fill_step. destruct (line_entry a) as [[n c]|] eqn:E; [|reflexivity].
    apply lookup_insert_ne. apply (H a n c); [by left | exact E].
  - intros line n c Hin. apply H. by right.
Qed.

Lemma fill_lookup_cases (l : list string) (f : gmap string node) (p : string) :
  fill f l !! p = f !! p
  \/ exists line n c, In line l /\ line_entry line = Some (n, c)
                      /\ p = secret_file n /\ fill f l !! p = Some (File c).
Proof.
  induction l as [|a l IH] using rev_ind; [by left|].
  rewrite fill_app. cbn [fill foldl]. fold (fill f l). unfold fill_step.
  destruct (line_entry a) as [[n c]|] eqn:E.
  - destruct (decide (secret_file n = p)) as [<-|Hne].
    + right. exists a, n, c. rewrite lookup_insert_eq.
      repeat split; try done. apply in_or_app. right. by left.
    + rewrite lookup_insert_ne by exact Hne.
      destruct IH as [IH|(line & n' & c' & Hin & He & Hp & Hl)]; [by left|].
      right. exists line, n', c'. repeat split; try done. apply in_or_app. by left.
  - destruct IH as [IH|(line & n' & c' & Hin & He & Hp & Hl)]; [by left|].
    right. exists line, n', c'. repeat split; try done. apply in_or_app. by left.
Qed.

(** The files that [prepare_env] leaves, when every line can be written. *)
Lemma prepare_env_done (content : string) (h : host) (w : world) :
  env_ready content (files w) ->
  prepare_env h w =
    (Done tt,
     World (fill (cleared (files w)) (env_lines content))
       (printed w ++ ["Preparing secrets in .secrets..."; "Secrets prepared."])
       (spawned w) (draws w)).
Proof.
  intros (He & Hs & Hwf).
  rewrite prepare_env_reaches_fill by exact Hs.
  unfold prepare_env_fill. rewrite bind_eq, read_text_eq.
  cbn [files world_cleared]. rewrite cleared_env, He. mred. rewrite bind_eq.
  rewrite for_each_fill.
  - mred. rewrite print_eq. unfold add_printed, set_files, world_cleared.
    cbn [files printed spawned draws]. by rewrite <- app_assoc.
  - cbn [files world_cleared]. by apply cleared_dir.
  - intros line Hin Hm. destruct (Hwf line Hin Hm) as (k & v & Hsp & Hv & Hn).
    exists k, v. repeat split; try assumption.
    cbn [files world_cleared]. intros Hdir. apply Hn.
    apply cleared_lookup_some in Hdir; [exact Hdir | apply secret_file_not_dir_path].
Qed.

(** The files after the clearing loop, entry by entry. *)
Lemma cleared_lookup (f : gmap string node) (p : string) :
  (forall c, f !! secrets_path <> Some (File c)) ->
  cleared f !! p =
    if decide (p = secrets_path) then Some Dir
    else match child_name secrets_path p with
         | Some _ => if isfile_in f p then None else f !! p
         | None => f !! p
         end.
Proof.
  intros Hs. destruct (decide (p = secrets_path)) as [->|Hp]; [by apply cleared_dir|].
  destruct (child_name secrets_path p) as [n|] eqn:Hc.
  - destruct (isfile_in f p) eqn:Hf.
    + apply child_name_inv in Hc as [Hn ->].
      change ((secrets_path +:+ "/") +:+ n) with (secret_file n) in *.
      pose proof (cleared_no_file f n Hn) as Hno.
      destruct (cleared f !! secret_file n) as [x|] eqn:E; [|reflexivity].
      pose proof (cleared_lookup_some f _ _ Hp E) as E'.
      unfold isfile_in in Hno, Hf. rewrite E in Hno. rewrite E' in Hf.
      destruct x; discriminate.
    + apply cleared_keeps; [exact Hp | by left].
  - apply cleared_keeps; [exact Hp | by right].
Qed.

(** Clearing what a run has written gives what clearing gave before it. *)
Lemma cleared_fill_cleared (f : gmap string node) (l : list string) :
  (forall c, f !! secrets_path <> Some (File c)) ->
  (forall line, In line l -> well_formed_line f line) ->
  cleared (fill (cleared f) l) = cleared f.
Proof.
  intros Hs Hwf.
  assert (Hentry : forall line n c, In line l -> line_entry line = Some (n, c) ->
            entry_name n = true /\ cleared f !! secret_file n = None).
  { intros line n c Hin He.
    destruct (well_formed_line_entry f line n c (Hwf line Hin) He) as [Hv Hn].
    pose proof (valid_name_entry n Hv) as Hen. split; [exact Hen|].
    rewrite (cleared_lookup f _ Hs).
    destruct (decide (secret_file n = secrets_path)) as [E|_];
      [by destruct (secret_file_not_dir_path n)|].
    rewrite (child_name_secret n Hen). unfold isfile_in.
    destruct (f !! secret_file n) as [[c'|]|]; try reflexivity. by destruct Hn. }
  set (g := fill (cleared f) l).
  assert (Hg : g !! secrets_path = Some Dir).
  { unfold g. rewrite fill_lookup_other; [by apply cleared_dir|].
    intros line n c _ _. apply secret_file_not_dir_path. }
  assert (Hgs : forall c, g !! secrets_path <> Some (File c)) by (intros c; by rewrite Hg).
  apply map_eq. intros p.
  rewrite (cleared_lookup g p Hgs).
  destruct (decide (p = secrets_path)) as [->|Hp]; [by rewrite cleared_dir|].
  destruct (fill_lookup_cases l (cleared f) p) as [E|(line & n & c & Hin & He & -> & E)];
    fold g in E.
  - destruct (child_name secrets_path p) as [n|] eqn:Hc; [|exact E].
    apply child_name_inv in Hc as [Hn ->].
    change ((secrets_path +:+ "/") +:+ n) with (secret_file n) in *.
    pose proof (cleared_no_file f n Hn) as Hno.
    rewrite (isfile_in_lookup g (cleared f)) by exact E. by rewrite Hno.
  - destruct (Hentry line n c Hin He) as [Hn Hnone].
    rewrite (child_name_secret n Hn). unfold isfile_in. by rewrite E, Hnone.
Qed.

Lemma env_ready_after (content : string) (f : gmap string node) :
  env_ready content f -> env_ready content (fill (cleared f) (env_lines content)).
Proof.
  intros (He & Hs & Hwf). split; [|split].
  - rewrite fill_lookup_other; [by rewrite cleared_env|].
    intros line n c _ _ H. discriminate H.
  - intros c. rewrite fill_lookup_other; [by rewrite cleared_dir|].
    intros line n c' _ _. apply secret_file_not_dir_path.
  - intros line Hin Hm. destruct (Hwf line Hin Hm) as (k & v & Hsp & Hv & Hn).
    exists k, v. repeat split; try assumption.
    destruct (fill_lookup_cases (env_lines content) (cleared f) (secret_file (Str.lower k)))
      as [E|(line' & n & c & _ & _ & _ & E)]; rewrite E; [|discriminate].
    intros Hdir. apply Hn.
    apply cleared_lookup_some in Hdir; [exact Hdir | apply secret_file_not_dir_path].
Qed.

(** X1.  Running the extractor again on what it left gives the same files. *)
Theorem prepare_env_twice_same_files (content : string) (h h2 : host) (w : world) :
  env_ready content (files w) ->
  exists w1 w2,
    prepare_env h w = (Done tt, w1)
    /\ prepare_env h2 w1 = (Done tt, w2)
    /\ files w2 = files w1.
Proof.
  intros Hr. pose proof (env_ready_after content (files w) Hr) as Hr1.
  rewrite (prepare_env_done content h w Hr).
  eexists. eexists. split; [reflexivity|].
  rewrite (prepare_env_done content h2) by exact Hr1.
  split; [reflexivity|]. cbn [files].
  destruct Hr as (_ & Hs & Hwf). by rewrite cleared_fill_cleared.
Qed.

(** X2.  When two lines have the same key, the file holds the value of the
    later one. *)
Theorem prepare_env_last_line_wins
    (content : string) (before after : list string) (line n c : string)
    (h : host) (w : world) :
  env_ready content (files w) ->
  env_lines content = before ++ line :: after ->
  line_entry line = Some (n, c) ->
  (forall line' c', In line' after -> line_entry line' <> Some (n, c')) ->
  exists w',
    prepare_env h w = (Done tt, w')
    /\ files w' !! secret_file n = Some (File c).
Proof.
  intros Hr Hl He Hafter. rewrite (prepare_env_done content h w Hr).
  eexists. split; [reflexivity|]. cbn [files].
  rewrite Hl, fill_app. cbn [fill foldl].
  fold (fill (fill_step (fill (cleared (files w)) before) line) after).
  rewrite fill_lookup_other.
  - unfold fill_step. rewrite He. apply lookup_insert_eq.
  - intros line' n' c' Hin He' Hp. apply secret_file_inj in Hp. subst n'.
    by apply (Hafter line' c').
Qed.

(** X3.  The extractor changes plain files directly in the secrets directory
    and nothing else: every other path is as before, directories stay,
    no process is started and no entropy is drawn. *)
Theorem prepare_env_touches_only_secret_files (content : string) (h : host) (w : world) :
  env_ready content (files w) ->
  exists w',
    prepare_env h w = (Done tt, w')
    /\ spawned w' = spawned w /\ draws w' = draws w
    /\ (forall p, p <> ".secrets" -> child_name ".secrets" p = None ->
          files w' !! p = files w !! p)
    /\ (forall p, files w !! p = Some Dir -> files w' !! p = Some Dir).
Proof.
  intros Hr. rewrite (prepare_env_done content h w Hr).
  destruct Hr as (He & Hs & Hwf).
  eexists. split; [reflexivity|]. cbn [files spawned draws].
  split; [reflexivity|]. split; [reflexivity|]. split.
  - intros p Hp Hc.
    destruct (fill_lookup_cases (env_lines content) (cleared (files w)) p)
      as [E|(line & n & c & Hin & Hle & -> & E)].
    + rewrite E. apply cleared_keeps; [exact Hp | by right].
    + destruct (well_formed_line_entry _ _ _ _ (Hwf line Hin) Hle) as [Hv _].
      pose proof (child_name_secret n (valid_name_entry n Hv)) as Hcn.
      change secrets_path with ".secrets" in Hcn. congruence.
  - intros p Hd.
    destruct (fill_lookup_cases (env_lines content) (cleared (files w)) p)
      as [E|(line & n & c & Hin & Hle & -> & E)].
    + rewrite E. rewrite (cleared_lookup _ _ Hs).
      destruct (decide (p = secrets_path)); [reflexivity|].
      unfold isfile_in. rewrite Hd. by destruct (child_name secrets_path p).
    + destruct (well_formed_line_entry _ _ _ _ (Hwf line Hin) Hle) as [_ Hn].
      by destruct Hn.
Qed.

Lemma world_duplicate_keys_ready :
  env_ready ("API_KEY=one" +:+ line_feed +:+ "HOST=localhost" +:+ line_feed +:+ "API_KEY=two")
    (files world_duplicate_keys).
Proof.
  split; [reflexivity|]. split; [intros c; discriminate|].
  intros line Hin Hm.
  change (In line ["API_KEY=one"; "HOST=localhost"; "API_KEY=two"]) in Hin.
  destruct Hin as [<-|[<-|[<-|[]]]].
  - exists "API_KEY", "one". repeat split. discriminate.
  - discriminate Hm.
  - exists "API_KEY", "two". repeat split. discriminate.
Defined.

Lemma prepare_env_twice_same_files_witness :
  exists w1 w2,
    prepare_env quiet_host world_duplicate_keys = (Done tt, w1)
    /\ prepare_env quiet_host w1 = (Done tt, w2)
    /\ files w2 = files w1.
Proof.
  exact (prepare_env_twice_same_files _ quiet_host quiet_host world_duplicate_keys
           world_duplicate_keys_ready).
Defined.

Lemma prepare_env_last_line_wins_witness :
  exists w',
    prepare_env quiet_host world_duplicate_keys = (Done tt, w')
    /\ files w' !! secret_file "api_key" = Some (File "two").
Proof.
  apply (prepare_env_last_line_wins
           ("API_KEY=one" +:+ line_feed +:+ "HOST=localhost" +:+ line_feed +:+ "API_KEY=two")
           ["API_KEY=one"; "HOST=localhost"] [] "API_KEY=two" "api_key" "two"
           quiet_host world_duplicate_keys world_duplicate_keys_ready).
  - reflexivity.
  - reflexivity.
  - intros line' c' [].
Defined.

Lemma prepare_env_touches_only_secret_files_witness :
  exists w',
    prepare_env quiet_host world_duplicate_keys = (Done tt, w')
    /\ files w' !! "docker-compose.yml" = Some (File "services: {}").
Proof.
  destruct (prepare_env_touches_only_secret_files _ quiet_host world_duplicate_keys
              world_duplicate_keys_ready) as (w' & Hrun & _ & _ & Hframe & _).
  exists w'. split; [exact Hrun|]. rewrite Hframe; reflexivity || discriminate.
Defined.

(** ** Computations that start no process *)

Lemma quiet_ret {A} (a : A) : quiet (ret a).
Proof. by intros h w. Qed.

Lemma quiet_raise {A} (e : exn) : quiet (@raise A e).
Proof. by intros h w. Qed.

Lemma quiet_print (s : string) : quiet (print s).
Proof. by intros h w. Qed.

Lemma quiet_get_files : quiet get_files.
Proof. by intros h w. Qed.

Lemma quiet_put_files (f : gmap string node) : quiet (put_files f).
Proof. by intros h w. Qed.

Lemma quiet_bind {A B} (c : M A) (k : A -> M B) :
  quiet c -> (forall a, quiet (k a)) -> quiet (bind c k).
Proof.
  intros Hc Hk h w. rewrite bind_eq. specialize (Hc h w).
  destruct (c h w) as [[a|e] w1]; cbn [snd] in *; [|exact Hc].
  destruct (Hk a h w1) as [H1 H2]. destruct Hc as [H3 H4]. split; congruence.
Qed.

Lemma quiet_try_except {A} (c : M A) (k : exn -> M A) :
  quiet c -> (forall e, quiet (k e)) -> quiet (try_except c k).
Proof.
  intros Hc Hk h w. rewrite try_except_eq. specialize (Hc h w).
  destruct (c h w) as [[a|e] w1]; cbn [snd] in *; [exact Hc|].
  destruct (Hk e h w1) as [H1 H2]. destruct Hc as [H3 H4]. split; congruence.
Qed.

Lemma quiet_for_each {A} (l : list A) (body : A -> M unit) :
  (forall x, quiet (body x)) -> quiet (for_each l body).
Proof.
  intros Hb. induction l as [|x l IH]; [apply quiet_ret|].
  cbn [for_each]. apply quiet_bind; [apply Hb | intros _; exact IH].
Qed.

Lemma quiet_if {A} (b : bool) (c1 c2 : M A) : quiet c1 -> quiet c2 -> quiet (if b then c1 else c2).
Proof. by destruct b. Qed.

Ltac quiet_tac :=
  repeat first
    [ apply quiet_ret | apply quiet_raise | apply quiet_print | apply quiet_get_files
    | apply quiet_put_files | apply quiet_if
    | apply quiet_bind; [|intros ?] | apply quiet_try_except; [|intros ?]
    | apply quiet_for_each; intros ?
    | match goal with |- quiet (match ?x with _ => _ end) => destruct x end ].

Lemma quiet_os_path_exists (p : string) : quiet (os_path_exists p).
Proof. unfold os_path_exists. quiet_tac. Qed.

Lemma quiet_os_path_isfile (p : string) : quiet (os_path_isfile p).
Proof. unfold os_path_isfile. quiet_tac. Qed.

Lemma quiet_os_listdir (p : string) : quiet (os_listdir p).
Proof. unfold os_listdir. quiet_tac. Qed.

Lemma quiet_os_mkdir (p : string) : quiet (os_mkdir p).
Proof. unfold os_mkdir. quiet_tac. Qed.

Lemma quiet_os_remove (p : string) : quiet (os_remove p).
Proof. unfold os_remove. quiet_tac. Qed.

Lemma quiet_read_text (p : string) : quiet (read_text p).
Proof. unfold read_text. quiet_tac. Qed.

Lemma quiet_write_text (p text : string) : quiet (write_text p text).
Proof. unfold write_text. quiet_tac. Qed.

Lemma quiet_prepare_env_line (d line : string) : quiet (prepare_env_line d line).
Proof.
  unfold prepare_env_line. apply quiet_if; [apply quiet_ret|].
  destruct (Str.split1 "=" line) as [|k [|v [|? ?]]];
    first [apply quiet_raise | apply quiet_write_text].
Qed.

Lemma quiet_prepare_env_clear (d n : string) : quiet (prepare_env_clear d n).
Proof.
  unfold prepare_env_clear. apply quiet_bind; [apply quiet_os_path_isfile|].
  intros isf. apply quiet_if; [apply quiet_os_remove | apply quiet_ret].
Qed.

Lemma quiet_prepare_env : quiet prepare_env.
Proof.
  unfold prepare_env.
  apply quiet_bind; [apply quiet_os_path_exists | intros ex].
  apply quiet_bind; [apply quiet_if; [apply quiet_os_mkdir | apply quiet_ret] | intros _].
  apply quiet_bind; [apply quiet_print | intros _].
  apply quiet_bind; [apply quiet_os_listdir | intros names].
  apply quiet_bind; [apply quiet_for_each; intros n; apply quiet_prepare_env_clear | intros _].
  apply quiet_bind; [apply quiet_read_text | intros content].
  apply quiet_bind; [|intros _; apply quiet_print].
  apply quiet_for_each. intros line. apply quiet_prepare_env_line.
Qed.

(** ** What the bootstrapper and the patcher can do *)

Lemma first_run_insert_other (f : gmap string node) (p : string) (x : node) :
  p <> settings_path -> first_run (<[p := x]> f) = first_run f.
Proof. intros H. unfold first_run. by rewrite lookup_insert_ne. Qed.

Lemma rewrite_effect (h : host) (w : world) :
  exists w',
    generate_searxng_secret_key_rewrite settings_path h w = (Done tt, w')
    /\ spawned w' = spawned w
    /\ (forall p, p <> settings_path -> files w' !! p = files w !! p)
    /\ first_run (files w') = false
    /\ (is_Some (files w !! settings_path) -> is_Some (files w' !! settings_path)).
Proof.
  destruct (files w !! settings_path) as [[c|]|] eqn:E.
  - destruct (Str.contains placeholder c) eqn:Hc.
    + rewrite (rewrite_with_placeholder c) by assumption.
      eexists. split; [reflexivity|]. cbn [files spawned]. split; [reflexivity|].
      split; [intros p Hp; by rewrite lookup_insert_ne|]. split.
      * unfold first_run. rewrite lookup_insert_eq.
        apply replace_placeholder_gone; [apply hexlify_is_hex|].
        rewrite hexlify_length, length_map, length_seq. simpl. lia.
      * intros _. rewrite lookup_insert_eq. eauto.
    + rewrite (rewrite_without_placeholder c) by assumption.
      eexists. split; [reflexivity|]. cbn [files spawned add_printed].
      split; [reflexivity|]. split; [reflexivity|]. split.
      * unfold first_run. by rewrite E.
      * by rewrite E.
  - unfold generate_searxng_secret_key_rewrite. do 2 mstep. rewrite E. mred.
    rewrite print_eq. eexists. split; [reflexivity|]. cbn [files spawned add_printed].
    split; [reflexivity|]. split; [reflexivity|]. split.
    + unfold first_run. by rewrite E.
    + by rewrite E.
  - unfold generate_searxng_secret_key_rewrite. do 2 mstep. rewrite E. mred.
    rewrite print_eq. eexists. split; [reflexivity|]. cbn [files spawned add_printed].
    split; [reflexivity|]. split; [reflexivity|]. split.
    + unfold first_run. by rewrite E.
    + by rewrite E.
Qed.

(** The copy of the template, with its handler. *)
Lemma copy_effect (h : host) (w : world) :
  files w !! settings_path = None ->
  exists (copied : bool) (w' : world),
    try_except
      (shutil_copyfile settings_base_path settings_path;;
       print ("Created " +:+ settings_path +:+ " from " +:+ settings_base_path);;
       ret true)
      (fun e => print ("Error creating settings.yml: " +:+ exn_text e);; ret false) h w
    = (Done copied, w')
    /\ spawned w' = spawned w /\ draws w' = draws w
    /\ (if copied
        then exists b, files w !! settings_base_path = Some (File b)
                       /\ create_check (files w) settings_path = None
                       /\ files w' = <[settings_path := File b]> (files w)
        else files w' = files w
             /\ (forall b, files w !! settings_base_path = Some (File b) ->
                   create_check (files w) settings_path <> None)).
Proof.
  intros Hs. rewrite try_except_eq, bind_eq. unfold shutil_copyfile.
  rewrite bind_eq, read_text_eq.
  destruct (files w !! settings_base_path) as [[b|]|] eqn:Hb.
  - mred. destruct (create_check (files w) settings_path) as [e|] eqn:Hc.
    + unfold write_text. rewrite bind_eq. unfold get_files at 1. mred.
      rewrite Hs, Hc. rewrite raise_eq. mred.
      exists false. eexists. split; [mstep; reflexivity|].
      cbn [files spawned draws add_printed].
      repeat split; try reflexivity. intros b' _. discriminate.
    + rewrite write_text_new by assumption. mred.
      exists true. eexists. split; [repeat mstep; reflexivity|].
      cbn [files spawned draws add_printed set_files].
      repeat split; try reflexivity. exists b. by repeat split.
  - mred.
    exists false. eexists. split; [mstep; reflexivity|].
    cbn [files spawned draws add_printed].
    repeat split; try reflexivity. intros b' H. discriminate H.
  - mred.
    exists false. eexists. split; [mstep; reflexivity|].
    cbn [files spawned draws add_printed].
    repeat split; try reflexivity. intros b' H. discriminate H.
Qed.

Lemma generate_searxng_secret_key_unfold (h : host) (w : world) :
  generate_searxng_secret_key h w =
    let w0 := add_printed "Checking SearXNG settings..." w in
    if negb (exists_in (files w) settings_base_path)
    then (Done tt,
          add_printed ("Warning: SearXNG base settings file not found at "
                       +:+ settings_base_path) w0)
    else if negb (exists_in (files w) settings_path)
    then
      bind
        (try_except
           (shutil_copyfile settings_base_path settings_path;;
            print ("Created " +:+ settings_path +:+ " from " +:+ settings_base_path);;
            ret true)
           (fun e => print ("Error creating settings.yml: " +:+ exn_text e);; ret false))
        (fun copied : bool =>
           if copied then generate_searxng_secret_key_rewrite settings_path else ret tt)
        h (add_printed ("SearXNG settings.yml not found. Creating from "
                        +:+ settings_base_path +:+ "...") w0)
    else generate_searxng_secret_key_rewrite settings_path h w0.
Proof.
  unfold generate_searxng_secret_key.
  change (path_join "searxng" "settings-base.yml") with settings_base_path.
  change (path_join "searxng" "settings.yml") with settings_path.
  cbv zeta. do 2 mstep. cbn [files add_printed].
  destruct (exists_in (files w) settings_base_path); cbn [negb]; [|reflexivity].
  mstep. cbn [files add_printed].
  destruct (exists_in (files w) settings_path); cbn [negb]; [reflexivity|].
  mstep. reflexivity.
Qed.

Lemma generate_searxng_secret_key_effect (h : host) (w : world) :
  exists w',
    generate_searxng_secret_key h w = (Done tt, w')
    /\ spawned w' = spawned w
    /\ (forall p, p <> settings_path -> files w' !! p = files w !! p)
    /\ (is_Some (files w !! settings_base_path) -> first_run (files w') = false).
Proof.
  rewrite generate_searxng_secret_key_unfold. cbv zeta. unfold exists_in.
  destruct (files w !! settings_base_path) as [base|] eqn:Hb; cbn [negb].
  - destruct (files w !! settings_path) as [x|] eqn:Hs; cbn [negb].
    + destruct (rewrite_effect h (add_printed "Checking SearXNG settings..." w))
        as (w' & Hrun & Hsp & Hfr & Hfirst & _).
      exists w'. by repeat split.
    + rewrite bind_eq.
      set (w1 := add_printed _ (add_printed _ w)).
      destruct (copy_effect h w1 Hs) as (copied & w2 & Hrun & Hsp & Hd & Hc).
      rewrite Hrun. mred. destruct copied.
      * destruct Hc as (b & _ & _ & Hf2).
        destruct (rewrite_effect h w2) as (w' & Hrun' & Hsp' & Hfr & Hfirst & _).
        exists w'. split; [exact Hrun'|]. split; [by rewrite Hsp', Hsp|]. split; [|done].
        intros p Hp. rewrite (Hfr p Hp), Hf2. by rewrite lookup_insert_ne.
      * destruct Hc as [Hf2 _]. rewrite ret_eq. exists w2.
        split; [reflexivity|]. split; [exact Hsp|]. split; [intros p _; by rewrite Hf2|].
        intros _. unfold first_run. rewrite Hf2. cbn [files w1 add_printed]. by rewrite Hs.
  - eexists. split; [reflexivity|]. cbn [files spawned add_printed].
    repeat split. intros [? H]. discriminate H.
Qed.

Lemma check_and_fix_effect (h : host) (w : world) :
  exists w',
    check_and_fix_docker_compose_for_searxng h w = (Done tt, w')
    /\ spawned w' = spawned w /\ draws w' = draws w
    /\ (forall p, p <> manifest_path -> files w' !! p = files w !! p).
Proof.
  destruct (files w !! manifest_path) as [[m|]|] eqn:E.
  - rewrite (check_and_fix_eq m) by exact E.
    destruct (first_run (files w) && Str.contains cap_drop m);
      [|destruct (negb (first_run (files w)) && Str.contains cap_drop_off m)];
      eexists; (split; [reflexivity|]); cbn [files spawned draws];
      repeat split; intros p Hp; by rewrite lookup_insert_ne.
  - unfold check_and_fix_docker_compose_for_searxng.
    change "docker-compose.yml" with manifest_path.
    mstep. unfold exists_in at 1. rewrite E. cbn [negb].
    do 2 mstep. rewrite E. mred. rewrite print_eq.
    eexists. split; [reflexivity|]. by repeat split.
  - unfold check_and_fix_docker_compose_for_searxng.
    change "docker-compose.yml" with manifest_path.
    mstep. unfold exists_in at 1. rewrite E. cbn [negb].
    eexists. split; [reflexivity|]. by repeat split.
Qed.

(** X8.  The bootstrapper never raises, whatever the files are (a missing
    template, settings that are a directory, a copy that fails): it
    returns, starts no process and leaves every path but
    [searxng/settings.yml] as it was. *)
Theorem generate_searxng_secret_key_never_raises (h : host) (w : world) :
  exists w',
    generate_searxng_secret_key h w = (Done tt, w')
    /\ spawned w' = spawned w
    /\ (forall p, p <> "searxng/settings.yml" -> files w' !! p = files w !! p).
Proof.
  destruct (generate_searxng_secret_key_effect h w) as (w' & Hrun & Hsp & Hfr & _).
  exists w'. by repeat split.
Qed.

(** X11.  The patcher never raises, whatever the files are: it returns, starts
    no process, draws no entropy and leaves every path but
    [docker-compose.yml] as it was. *)
Theorem check_and_fix_never_raises (h : host) (w : world) :
  exists w',
    check_and_fix_docker_compose_for_searxng h w = (Done tt, w')
    /\ spawned w' = spawned w /\ draws w' = draws w
    /\ (forall p, p <> "docker-compose.yml" -> files w' !! p = files w !! p).
Proof. apply check_and_fix_effect. Qed.

(** X9.  First use: with a template, no runtime settings and the directory
    [searxng] in place, the bootstrapper creates the settings from the
    template with the placeholder replaced by a fresh token, and leaves
    the template as it is. *)
Theorem generate_searxng_secret_key_first_use (b : string) (h : host) (w : world) :
  files w !! "searxng/settings-base.yml" = Some (File b) ->
  files w !! "searxng/settings.yml" = None ->
  files w !! "searxng" = Some Dir ->
  let token := hexlify (List.map (urandom h (draws w)) (seq 0 32)) in
  let text := if Str.contains placeholder b then Str.replace placeholder token b else b in
  exists w',
    generate_searxng_secret_key h w = (Done tt, w')
    /\ files w' = <["searxng/settings.yml" := File text]> (files w)
    /\ files w' !! "searxng/settings-base.yml" = Some (File b)
    /\ Str.contains placeholder text = false.
Proof.
  intros Hb Hs Hd token text.
  assert (Hc : create_check (files w) settings_path = None).
  { change (create_check (files w) settings_path)
      with (parent_check (files w) (Some "searxng")).
    unfold parent_check. by rewrite Hd. }
  change "searxng/settings.yml" with settings_path in Hs |- *.
  change "searxng/settings-base.yml" with settings_base_path in Hb |- *.
  rewrite generate_searxng_secret_key_unfold. cbv zeta. unfold exists_in.
  rewrite Hb. cbn [negb]. rewrite Hs. cbn [negb].
  rewrite bind_eq.
  set (w1 := add_printed _ (add_printed _ w)).
  destruct (copy_effect h w1 Hs) as (copied & w2 & Hrun & Hsp & Hdr & Hcopy).
  rewrite Hrun. mred. destruct copied.
  - destruct Hcopy as (b' & Hb' & _ & Hf2).
    cbn [files w1 add_printed] in Hb'.
    rewrite Hb in Hb'. injection Hb' as <-.
    assert (Hs2 : files w2 !! settings_path = Some (File b)).
    { rewrite Hf2. apply lookup_insert_eq. }
    assert (Hd2 : draws w2 = draws w) by (by rewrite Hdr).
    unfold text. destruct (Str.contains placeholder b) eqn:Hp.
    + rewrite (rewrite_with_placeholder b) by assumption.
      eexists. split; [reflexivity|]. cbn [files].
      rewrite Hf2, Hd2. cbn [files w1 add_printed]. rewrite insert_insert_eq.
      fold token. split; [reflexivity|]. split.
      * by rewrite lookup_insert_ne.
      * apply replace_placeholder_gone; [apply hexlify_is_hex|].
        unfold token. rewrite hexlify_length, length_map, length_seq. simpl. lia.
    + rewrite (rewrite_without_placeholder b) by assumption.
      eexists. split; [reflexivity|]. cbn [files add_printed].
      rewrite Hf2. cbn [files w1 add_printed]. split; [reflexivity|]. split; [|exact Hp].
      by rewrite lookup_insert_ne.
  - destruct Hcopy as [_ Hno]. exfalso. apply (Hno b); [|exact Hc].
    cbn [files w1 add_printed]. exact Hb.
Qed.

Lemma generate_searxng_secret_key_first_use_witness :
  exists w',
    generate_searxng_secret_key quiet_host world_first_use = (Done tt, w')
    /\ files w' !! "searxng/settings.yml"
       = Some (File "secret_key: 030a11181f262d343b424950575e656c737a81888f969da4abb2b9c0c7ced5dc").
Proof.
  destruct (generate_searxng_secret_key_first_use "secret_key: ultrasecretkey"
              quiet_host world_first_use eq_refl eq_refl eq_refl)
    as (w' & Hrun & Hf & _).
  exists w'. split; [exact Hrun|]. rewrite Hf. reflexivity.
Defined.

(** X10.  With a template in place, the bootstrapper leaves settings without
    the placeholder alone: no file changes and no entropy is drawn. *)
Theorem generate_searxng_secret_key_settled_is_noop
    (base : node) (content : string) (h : host) (w : world) :
  files w !! "searxng/settings-base.yml" = Some base ->
  files w !! "searxng/settings.yml" = Some (File content) ->
  Str.contains placeholder content = false ->
  exists w',
    generate_searxng_secret_key h w = (Done tt, w')
    /\ files w' = files w /\ draws w' = draws w /\ spawned w' = spawned w.
Proof.
  intros Hb Hs Hc.
  rewrite (generate_searxng_secret_key_settled base content) by assumption.
  rewrite (rewrite_without_placeholder content) by assumption.
  eexists. split; [reflexivity|]. by repeat split.
Qed.

Lemma generate_searxng_secret_key_settled_is_noop_witness :
  exists w',
    generate_searxng_secret_key quiet_host world_after_first_run = (Done tt, w')
    /\ files w' = files world_after_first_run.
Proof.
  destruct (generate_searxng_secret_key_settled_is_noop
              (File "secret_key: ultrasecretkey") "a: 0123 b: 4567"
              quiet_host world_after_first_run eq_refl eq_refl eq_refl)
    as (w' & Hrun & Hf & _).
  by exists w'.
Defined.

(** X13.  In the order of [main], with a template in place, the patcher never
    comments the directive out: the bootstrapper has removed the
    placeholder before the patcher looks for it, so the manifest is
    restored if it holds the sentinel and is left alone otherwise. *)
Theorem bootstrap_then_patch_with_template (manifest : string) (h : host) (w : world) :
  is_Some (files w !! "searxng/settings-base.yml") ->
  files w !! "docker-compose.yml" = Some (File manifest) ->
  exists w',
    bootstrap_then_patch h w = (Done tt, w')
    /\ first_run (files w') = false
    /\ files w' !! "docker-compose.yml"
       = Some (File (if Str.contains cap_drop_off manifest
                     then Str.replace cap_drop_off cap_drop manifest
                     else manifest)).
Proof.
  intros Hb Hm. unfold bootstrap_then_patch. rewrite bind_eq.
  destruct (generate_searxng_secret_key_effect h w) as (w1 & Hrun & _ & Hfr & Hfirst).
  rewrite Hrun. mred. specialize (Hfirst Hb).
  assert (Hm1 : files w1 !! manifest_path = Some (File manifest)).
  { rewrite Hfr; [exact Hm | discriminate]. }
  rewrite (check_and_fix_eq manifest) by exact Hm1. rewrite Hfirst. cbn [andb negb].
  destruct (Str.contains cap_drop_off manifest).
  - eexists. split; [reflexivity|]. cbn [files]. split.
    + by rewrite first_run_insert_other.
    + apply lookup_insert_eq.
  - exists w1. by repeat split.
Qed.

Lemma bootstrap_then_patch_with_template_witness :
  exists w',
    bootstrap_then_patch quiet_host world_first_run = (Done tt, w')
    /\ files w' !! "docker-compose.yml" = Some (File "searxng: cap_drop: - ALL image: x").
Proof.
  destruct (bootstrap_then_patch_with_template "searxng: cap_drop: - ALL image: x"
              quiet_host world_first_run) as (w' & Hrun & _ & Hf).
  - eexists. reflexivity.
  - reflexivity.
  - exists w'. split; [exact Hrun|]. rewrite Hf. reflexivity.
Defined.

(** X14.  Without a template the bootstrapper does nothing, so settings that
    hold the placeholder keep the first-run signal on and the patcher
    comments the directive out. *)
Theorem bootstrap_then_patch_without_template (manifest : string) (h : host) (w : world) :
  files w !! "searxng/settings-base.yml" = None ->
  first_run (files w) = true ->
  files w !! "docker-compose.yml" = Some (File manifest) ->
  Str.contains cap_drop manifest = true ->
  exists w',
    bootstrap_then_patch h w = (Done tt, w')
    /\ first_run (files w') = true
    /\ files w' !! "docker-compose.yml"
       = Some (File (Str.replace cap_drop cap_drop_off manifest)).
Proof.
  intros Hb Hf Hm Hc. unfold bootstrap_then_patch. rewrite bind_eq.
  rewrite generate_searxng_secret_key_unfold. cbv zeta. unfold exists_in at 1.
  change settings_base_path with "searxng/settings-base.yml". rewrite Hb. cbn [negb]. mred.
  rewrite (check_and_fix_eq manifest) by exact Hm.
  cbn [files add_printed]. rewrite Hf, Hc. cbn [andb].
  eexists. split; [reflexivity|]. cbn [files]. split.
  - by rewrite first_run_insert_other.
  - apply lookup_insert_eq.
Qed.

Lemma bootstrap_then_patch_without_template_witness :
  exists w',
    bootstrap_then_patch quiet_host world_stale_settings = (Done tt, w')
    /\ files w' !! "docker-compose.yml"
       = Some (File "searxng: # cap_drop: - ALL  # Temporarily commented out for first run image: x").
Proof.
  destruct (bootstrap_then_patch_without_template "searxng: cap_drop: - ALL image: x"
              quiet_host world_stale_settings eq_refl eq_refl eq_refl eq_refl)
    as (w' & Hrun & _ & Hf).
  exists w'. split; [exact Hrun|]. rewrite Hf. reflexivity.
Defined.

(** ** Commenting out more than once *)

Lemma comment_grows (m : string) :
  String.length m <= String.length (Str.replace cap_drop cap_drop_off m)
  /\ (Str.contains cap_drop m = true ->
      String.length m < String.length (Str.replace cap_drop cap_drop_off m)).
Proof.
  induction m as [| r [IH1 IH2] | c s E [IH1 IH2]] using (replace_ind cap_drop eq_refl).
  - split; [reflexivity | discriminate].
  - rewrite (replace_match cap_drop cap_drop_off eq_refl), !length_app.
    change (String.length cap_drop) with 15. change (String.length cap_drop_off) with 60.
    split; [lia | intros _; lia].
  - rewrite (replace_nomatch cap_drop cap_drop_off eq_refl) by exact E.
    cbn [String.length]. split; [lia|].
    rewrite contains_cons, E. cbn [orb]. intros H. specialize (IH2 H). lia.
Qed.

Lemma directive_in_sentinel (z : string) : Str.contains cap_drop (cap_drop_off +:+ z) = true.
Proof.
  rewrite cap_drop_off_eq, !app_cons, !contains_cons.
  rewrite (contains_startswith cap_drop); [by rewrite !orb_true_r|].
  apply (startswith_app_l cap_drop sentinel_tail). apply startswith_app.
Qed.

Lemma directive_survives_comment (m : string) :
  Str.contains cap_drop m = true ->
  Str.contains cap_drop (Str.replace cap_drop cap_drop_off m) = true.
Proof.
  induction m as [| r IH | c s E IH] using (replace_ind cap_drop eq_refl); intros H.
  - discriminate H.
  - rewrite (replace_match cap_drop cap_drop_off eq_refl). apply directive_in_sentinel.
  - rewrite (replace_nomatch cap_drop cap_drop_off eq_refl) by exact E.
    rewrite contains_cons in H |- *. rewrite E in H. cbn [orb] in H.
    rewrite (IH H). apply orb_true_r.
Qed.

(** X12.  While the first-run signal stays on, every run of the patcher
    comments the directive out again, inside the sentinel it wrote the run
    before: the manifest grows with each run. *)
Theorem check_and_fix_comment_nests (manifest : string) (h h2 : host) (w : world) :
  files w !! "docker-compose.yml" = Some (File manifest) ->
  Str.contains cap_drop manifest = true ->
  first_run (files w) = true ->
  let once := Str.replace cap_drop cap_drop_off manifest in
  let twice := Str.replace cap_drop cap_drop_off once in
  exists w1 w2,
    check_and_fix_docker_compose_for_searxng h w = (Done tt, w1)
    /\ files w1 !! "docker-compose.yml" = Some (File once)
    /\ check_and_fix_docker_compose_for_searxng h2 w1 = (Done tt, w2)
    /\ files w2 !! "docker-compose.yml" = Some (File twice)
    /\ String.length manifest < String.length once
    /\ String.length once < String.length twice.
Proof.
  intros Hm Hc Hf once twice.
  pose proof (directive_survives_comment manifest Hc) as Hc1. fold once in Hc1.
  rewrite (check_and_fix_eq manifest) by exact Hm. rewrite Hf, Hc. cbn [andb].
  eexists. eexists. split; [reflexivity|]. cbn [files].
  split; [apply lookup_insert_eq|].
  rewrite (check_and_fix_eq once) by (cbn [files]; apply lookup_insert_eq).
  cbn [files]. rewrite first_run_insert_other by discriminate. rewrite Hf, Hc1. cbn [andb].
  split; [reflexivity|]. cbn [files]. split; [apply lookup_insert_eq|].
  split; by apply comment_grows.
Qed.

Lemma check_and_fix_comment_nests_witness :
  exists w1 w2,
    check_and_fix_docker_compose_for_searxng quiet_host world_stale_settings = (Done tt, w1)
    /\ check_and_fix_docker_compose_for_searxng quiet_host w1 = (Done tt, w2)
    /\ files w2 !! "docker-compose.yml"
       = Some (File ("searxng: # # cap_drop: - ALL  # Temporarily commented out for first run"
                     +:+ "  # Temporarily commented out for first run image: x")).
Proof.
  destruct (check_and_fix_comment_nests "searxng: cap_drop: - ALL image: x"
              quiet_host quiet_host world_stale_settings eq_refl eq_refl eq_refl)
    as (w1 & w2 & H1 & _ & H2 & Hf & _).
  exists w1, w2. split; [exact H1|]. split; [exact H2|]. rewrite Hf. reflexivity.
Defined.

(** ** The phases that run the container CLI *)

Lemma run_command_eq (cmd : list string) (h : host) (w : world) :
  run_command cmd h w =
    let w' := add_spawned cmd (add_printed ("Running: " +:+ Str.join " " cmd) w) in
    match subprocess h (spawned w) cmd with
    | Exited 0 out => (Done out, w')
    | Exited (S _) _ => (Raised CalledProcessError, w')
    | NotStarted => (Raised FileNotFoundError, w')
    end.
Proof.
  unfold run_command, subprocess_run. rewrite bind_eq, print_eq. mred.
  cbn [spawned add_printed]. by destruct (subprocess h (spawned w) cmd) as [[|c] out|].
Qed.

Lemma pull_one_eq (file : string) (h : host) (w : world) :
  pull_one file h w =
    let w' := add_spawned (pull_cmd file)
                (add_printed ("Running: " +:+ Str.join " " (pull_cmd file))
                   (add_printed ("Pulling latest images for " +:+ file +:+ "...") w)) in
    match subprocess h (spawned w) (pull_cmd file) with
    | Exited 0 out => (Done tt, w')
    | Exited (S _) _ => (Raised CalledProcessError, w')
    | NotStarted => (Raised FileNotFoundError, w')
    end.
Proof.
  unfold pull_one. rewrite bind_eq, print_eq. mred. rewrite bind_eq, run_command_eq.
  cbv zeta. cbn [spawned add_printed].
  by destruct (subprocess h (spawned w) (pull_cmd file)) as [[|c] out|].
Qed.

Lemma pull_loop_success (cfs : list string) (h : host) (w : world) :
  (forall hist file, In file cfs -> exists out, subprocess h hist (pull_cmd file) = Exited 0 out) ->
  exists w',
    for_each cfs pull_one h w = (Done tt, w')
    /\ files w' = files w /\ draws w' = draws w
    /\ spawned w' = spawned w ++ List.map pull_cmd cfs.
Proof.
  revert w. induction cfs as [|file cfs IH]; intros w Hh.
  - exists w. cbn [for_each List.map]. by rewrite app_nil_r.
  - cbn [for_each]. rewrite bind_eq, pull_one_eq. cbv zeta.
    destruct (Hh (spawned w) file (or_introl eq_refl)) as [out ->].
    destruct (IH (add_spawned (pull_cmd file)
                    (add_printed ("Running: " +:+ Str.join " " (pull_cmd file))
                       (add_printed ("Pulling latest images for " +:+ file +:+ "...") w))))
      as (w' & Hrun & Hf & Hd & Hs).
    { intros hist f Hin. apply Hh. by right. }
    exists w'. split; [exact Hrun|]. split; [exact Hf|]. split; [exact Hd|].
    rewrite Hs. cbn [spawned add_spawned add_printed List.map].
    by rewrite <- app_assoc.
Qed.

Lemma pull_docker_images_eq (cfs : list string) (update : bool) (h : host) (w : world) :
  pull_docker_images cfs update h w =
    match subprocess h (spawned w) image_check_cmd with
    | Exited 0 out =>
        if Str.contains "ollama/ollama:latest" out && negb update
        then (Done tt, add_printed "Images already present, skipping pull."
                         (add_spawned image_check_cmd w))
        else for_each cfs pull_one h (add_spawned image_check_cmd w)
    | Exited (S _) _ => (Raised CalledProcessError, add_spawned image_check_cmd w)
    | NotStarted => (Raised FileNotFoundError, add_spawned image_check_cmd w)
    end.
Proof.
  unfold pull_docker_images. rewrite bind_eq. unfold subprocess_run at 1.
  fold image_check_cmd.
  destruct (subprocess h (spawned w) image_check_cmd) as [[|c] out|]; try reflexivity.
  mred. by destruct (Str.contains "ollama/ollama:latest" out && negb update).
Qed.

(** X15.  On a host where every command succeeds, the pull phase runs the image
    check and then, unless the image is listed and no update is asked for,
    one pull per compose file, in the order of the list; it changes no
    file. *)
Theorem pull_docker_images_commands
    (cfs : list string) (update : bool) (h : host) (w : world) :
  always_succeeds h ->
  exists w',
    pull_docker_images cfs update h w = (Done tt, w')
    /\ files w' = files w
    /\ spawned w' =
         spawned w ++ image_check_cmd ::
           (if image_listed h (spawned w) && negb update then []
            else List.map pull_cmd cfs).
Proof.
  intros Hh. rewrite pull_docker_images_eq. unfold image_listed.
  destruct (Hh (spawned w) image_check_cmd) as [out ->].
  destruct (Str.contains "ollama/ollama:latest" out && negb update).
  - eexists. split; [reflexivity|]. by split.
  - destruct (pull_loop_success cfs h (add_spawned image_check_cmd w))
      as (w' & Hrun & Hf & _ & Hs); [intros hist f _; apply Hh|].
    exists w'. split; [exact Hrun|]. split; [exact Hf|].
    rewrite Hs. cbn [spawned add_spawned]. by rewrite <- app_assoc.
Qed.

Lemma quiet_host_always_succeeds : always_succeeds quiet_host.
Proof. intros hist cmd. eexists. reflexivity. Defined.

Lemma pull_docker_images_commands_witness :
  exists w',
    pull_docker_images ["a.yml"; "b.yml"] true quiet_host world_without_env = (Done tt, w')
    /\ spawned w' = [image_check_cmd; pull_cmd "a.yml"; pull_cmd "b.yml"].
Proof.
  destruct (pull_docker_images_commands ["a.yml"; "b.yml"] true quiet_host world_without_env
              quiet_host_always_succeeds) as (w' & Hrun & _ & Hs).
  exists w'. split; [exact Hrun|]. rewrite Hs. reflexivity.
Defined.

(** X16.  A pull that exits with a non-zero code ends the pull phase with
    [CalledProcessError]: the files before it have been pulled for, the
    files after it are not tried. *)
Theorem pull_docker_images_stops_at_failure
    (before after : list string) (file out : string) (update : bool)
    (h : host) (w : world) :
  subprocess h (spawned w) image_check_cmd = Exited 0 out ->
  Str.contains "ollama/ollama:latest" out && negb update = false ->
  (forall hist f, In f before -> exists o, subprocess h hist (pull_cmd f) = Exited 0 o) ->
  (forall hist, exists c o, subprocess h hist (pull_cmd file) = Exited (S c) o) ->
  exists w',
    pull_docker_images (before ++ file :: after) update h w = (Raised CalledProcessError, w')
    /\ spawned w' = spawned w ++ image_check_cmd :: List.map pull_cmd (before ++ [file]).
Proof.
  intros Hchk Hskip Hbefore Hfail. rewrite pull_docker_images_eq, Hchk, Hskip.
  set (w0 := add_spawned image_check_cmd w).
  assert (Hloop : forall w1,
            exists w',
              for_each (before ++ file :: after) pull_one h w1 = (Raised CalledProcessError, w')
              /\ spawned w' = spawned w1 ++ List.map pull_cmd (before ++ [file])).
  { clear Hchk Hskip w0. induction before as [|b before IH]; intros w1.
    - cbn [app for_each]. rewrite bind_eq, pull_one_eq. cbv zeta.
      destruct (Hfail (spawned w1)) as (c & o & ->).
      eexists. split; [reflexivity|]. reflexivity.
    - cbn [app for_each]. rewrite bind_eq, pull_one_eq. cbv zeta.
      destruct (Hbefore (spawned w1) b (or_introl eq_refl)) as [o ->].
      destruct (IH (fun hist f Hin => Hbefore hist f (or_intror Hin))
                  (add_spawned (pull_cmd b)
                     (add_printed ("Running: " +:+ Str.join " " (pull_cmd b))
                        (add_printed ("Pulling latest images for " +:+ b +:+ "...") w1))))
        as (w' & Hrun & Hs).
      exists w'. split; [exact Hrun|]. rewrite Hs.
      cbn [spawned add_spawned add_printed List.map app]. by rewrite <- app_assoc. }
  destruct (Hloop w0) as (w' & Hrun & Hs).
  exists w'. split; [exact Hrun|]. rewrite Hs. cbn [spawned w0 add_spawned].
  by rewrite <- app_assoc.
Qed.

Lemma pull_docker_images_stops_at_failure_witness :
  exists w',
    pull_docker_images ["docker-compose.yml"; "extra.yml"; "later.yml"] true
      host_failing_pull world_without_env = (Raised CalledProcessError, w')
    /\ spawned w' = [image_check_cmd; pull_cmd "docker-compose.yml"; pull_cmd "extra.yml"].
Proof.
  destruct (pull_docker_images_stops_at_failure ["docker-compose.yml"] ["later.yml"]
              "extra.yml" EmptyString true host_failing_pull world_without_env)
    as (w' & Hrun & Hs).
  - reflexivity.
  - reflexivity.
  - intros hist f [<-|[]]. eexists. reflexivity.
  - intros hist. eexists. eexists. reflexivity.
  - exists w'. split; [exact Hrun|]. rewrite Hs. reflexivity.
Defined.

(** ** The run as a whole *)

Lemma stop_existing_containers_eq (project : option string) (h : host) (w : world) :
  stop_existing_containers project None h w =
    bind (run_command down_cmd_of_main) (fun _ => ret tt) h
      (add_printed
         "Stopping and removing existing containers for the unified project 'insights-lm'..." w).
Proof.
  unfold stop_existing_containers. rewrite bind_eq, print_eq. mred.
  rewrite bind_eq, docker_compose_eq. mred.
  rewrite add_printed_all_nil. reflexivity.
Qed.

Lemma start_insights_lm_eq (a : args) (h : host) (w : world) :
  start_insights_lm (Some (name a)) (Some (profile_str (profile a)))
    (Some (environment_str (environment a))) (compose_files a) h w =
    bind (run_command (up_cmd a (files w))) (fun _ => ret tt) h
      (add_printed_all
         (List.map skip_warning
            (List.filter (fun file => negb (exists_in (files w) file)) (compose_files a)))
         (add_printed "Starting Insights LM services..." w)).
Proof.
  unfold start_insights_lm. rewrite bind_eq, print_eq. mred.
  rewrite bind_eq, docker_compose_eq. mred. unfold up_cmd.
  cbn [files add_printed]. by rewrite <- app_assoc.
Qed.

(** Without the config-only flag, a run in which the extractor returns
    reaches the CLI phases in a state with the same started processes. *)
Lemma main_reaches_cli_phases (a : args) (h : host) (w w1 : world) :
  config a = false ->
  prepare_env h w = (Done tt, w1) ->
  exists w3,
    main a h w = cli_phases a h w3
    /\ spawned w3 = spawned w
    /\ (forall p, p <> settings_path -> p <> manifest_path -> files w3 !! p = files w1 !! p).
Proof.
  intros Hc Hp. unfold main. rewrite Hc.
  rewrite bind_eq, Hp. mred.
  destruct (generate_searxng_secret_key_effect h w1) as (w2 & Hg & Hs2 & Hf2 & _).
  rewrite bind_eq, Hg. mred.
  destruct (check_and_fix_effect h w2) as (w3 & Hk & Hs3 & _ & Hf3).
  rewrite bind_eq, Hk. mred.
  exists w3. split; [reflexivity|]. split.
  - rewrite Hs3, Hs2. pose proof (quiet_prepare_env h w) as [Hq _].
    by rewrite Hp in Hq.
  - intros p H1 H2. by rewrite Hf3, Hf2.
Qed.

(** X17.  A [down] that exits with a non-zero code ends the run with
    [CalledProcessError]: nothing is pulled and nothing is started. *)
Theorem main_stops_at_failed_down
    (a : args) (c : nat) (out : string) (h : host) (w w1 : world) :
  config a = false ->
  prepare_env h w = (Done tt, w1) ->
  subprocess h (spawned w) down_cmd_of_main = Exited (S c) out ->
  exists w',
    main a h w = (Raised CalledProcessError, w')
    /\ spawned w' = spawned w ++ [down_cmd_of_main].
Proof.
  intros Hc Hp Hd.
  destruct (main_reaches_cli_phases a h w w1 Hc Hp) as (w3 & -> & Hs & _).
  unfold cli_phases. rewrite bind_eq, stop_existing_containers_eq.
  rewrite bind_eq, run_command_eq. cbv zeta. cbn [spawned add_printed].
  rewrite Hs, Hd. eexists. split; [reflexivity|].
  cbn [spawned add_spawned add_printed]. by rewrite Hs.
Qed.

Lemma main_stops_at_failed_down_witness :
  exists w',
    main default_args host_failing_down world_duplicate_keys = (Raised CalledProcessError, w')
    /\ spawned w' = [down_cmd_of_main].
Proof.
  destruct (main_stops_at_failed_down default_args 0 "daemon not running"
              host_failing_down world_duplicate_keys
              (prepare_env host_failing_down world_duplicate_keys).2)
    as (w' & Hrun & Hs).
  - reflexivity.
  - vm_compute. reflexivity.
  - reflexivity.
  - exists w'. split; [exact Hrun|]. exact Hs.
Defined.

(** X18.  On a host where every command succeeds, a run in which the extractor
    returns goes through the phases in this order: [down], the image
    check, the pulls (unless skipped) for the three base files and then
    the extra files, and [up -d] with the extra files that exist. *)
Theorem main_phase_order (a : args) (h : host) (w w1 : world) :
  config a = false ->
  prepare_env h w = (Done tt, w1) ->
  always_succeeds h ->
  exists w',
    main a h w = (Done tt, w')
    /\ spawned w' =
         spawned w ++ down_cmd_of_main :: image_check_cmd ::
           (if image_listed h (spawned w ++ [down_cmd_of_main]) && negb (update a) then []
            else List.map pull_cmd (base_compose_files ++ compose_files a))
           ++ [up_cmd a (files w')].
Proof.
  intros Hc Hp Hh.
  destruct (main_reaches_cli_phases a h w w1 Hc Hp) as (w3 & -> & Hs & _).
  unfold cli_phases. rewrite bind_eq, stop_existing_containers_eq.
  rewrite bind_eq, run_command_eq. cbv zeta. cbn [spawned add_printed].
  destruct (Hh (spawned w3) down_cmd_of_main) as [out ->]. mred. rewrite ret_eq. mred.
  set (w4 := add_spawned down_cmd_of_main _).
  rewrite bind_eq.
  destruct (Hh (spawned w4) image_check_cmd) as [lsout Hls].
  assert (Hpull : exists w5,
            pull_docker_images (base_compose_files ++ compose_files a) (update a) h w4
              = (Done tt, w5)
            /\ files w5 = files w4
            /\ spawned w5 = spawned w4 ++ image_check_cmd ::
                 (if image_listed h (spawned w4) && negb (update a) then []
                  else List.map pull_cmd (base_compose_files ++ compose_files a))).
  { rewrite pull_docker_images_eq. unfold image_listed. rewrite Hls.
    destruct (Str.contains "ollama/ollama:latest" lsout && negb (update a)).
    - eexists. split; [reflexivity|]. by split.
    - destruct (pull_loop_success (base_compose_files ++ compose_files a) h
                  (add_spawned image_check_cmd w4))
        as (w5 & Hrun & Hf & _ & Hs5); [intros hist f _; apply Hh|].
      exists w5. split; [exact Hrun|]. split; [exact Hf|].
      rewrite Hs5. cbn [spawned add_spawned]. by rewrite <- app_assoc. }
  destruct Hpull as (w5 & Hrun5 & Hf5 & Hs5). rewrite Hrun5. mred.
  rewrite start_insights_lm_eq, bind_eq, run_command_eq. cbv zeta.
  cbn [spawned add_printed add_printed_all].
  destruct (Hh (spawned w5) (up_cmd a (files w5))) as [upout ->]. mred. rewrite ret_eq.
  eexists. split; [reflexivity|].
  cbn [spawned files add_spawned add_printed add_printed_all].
  rewrite Hs5. cbn [spawned w4 add_spawned add_printed]. rewrite Hs.
  rewrite <- !app_assoc. reflexivity.
Qed.

Lemma main_phase_order_witness :
  exists w',
    main default_args quiet_host world_duplicate_keys = (Done tt, w')
    /\ spawned w' =
         [down_cmd_of_main; image_check_cmd; pull_cmd "docker-compose.yml";
          pull_cmd "local-ai-packaged/docker-compose.yml";
          pull_cmd "supabase-insights-lm/docker-compose.yml";
          up_cmd default_args (files w')].
Proof.
  destruct (main_phase_order default_args quiet_host world_duplicate_keys
              (prepare_env quiet_host world_duplicate_keys).2)
    as (w' & Hrun & Hs).
  - reflexivity.
  - vm_compute. reflexivity.
  - intros hist cmd. eexists. reflexivity.
  - exists w'. split; [exact Hrun|]. rewrite Hs. reflexivity.
Defined.

(** ** What an entry of the secrets directory looks like *)

Lemma all_chars_app (f : ascii -> bool) (a b : string) :
  all_chars f (a +:+ b) = all_chars f a && all_chars f b.
Proof.
  induction a as [|x a IH]; [reflexivity|].
  rewrite app_cons. cbn [all_chars]. by rewrite IH, andb_assoc.
Qed.

Lemma all_chars_lstrip (f g : ascii -> bool) (s : string) :
  all_chars f s = true -> all_chars f (Str.lstrip_by g s) = true.
Proof.
  induction s as [|x s IH]; [done|]. intros H. cbn [Str.lstrip_by].
  destruct (g x); [|exact H]. cbn [all_chars] in H. apply andb_true_iff in H as [_ H]. auto.
Qed.

Lemma all_chars_rstrip (f g : ascii -> bool) (s : string) :
  all_chars f s = true -> all_chars f (Str.rstrip_by g s) = true.
Proof.
  induction s as [|x s IH]; [done|]. intros H. cbn [all_chars] in H.
  apply andb_true_iff in H as [Hx H]. specialize (IH H). cbn [Str.rstrip_by].
  destruct (Str.rstrip_by g s) as [|y r].
  - destruct (g x); [reflexivity|]. cbn [all_chars]. by rewrite Hx.
  - cbn [all_chars] in IH |- *. by rewrite Hx, IH.
Qed.

Lemma all_chars_strip (f g : ascii -> bool) (s : string) :
  all_chars f s = true -> all_chars f (Str.strip_by g s) = true.
Proof. intros H. unfold Str.strip_by. by apply all_chars_rstrip, all_chars_lstrip. Qed.

Lemma lower_char_not_upper (x : ascii) : negb (is_upper (Str.lower_char x)) = true.
Proof. destruct x as [[] [] [] [] [] [] [] []]; reflexivity. Qed.

Lemma lower_char_linebreak (x : ascii) :
  Str.is_linebreak (Str.lower_char x) = Str.is_linebreak x.
Proof. destruct x as [[] [] [] [] [] [] [] []]; reflexivity. Qed.

Lemma lower_char_is_sep (x : ascii) :
  bool_decide (Str.lower_char x = "="%char) = bool_decide (x = "="%char).
Proof. destruct x as [[] [] [] [] [] [] [] []]; reflexivity. Qed.

Lemma lower_no_upper (s : string) :
  all_chars (fun x => negb (is_upper x)) (Str.lower s) = true.
Proof.
  induction s as [|x s IH]; [reflexivity|].
  cbn [Str.lower all_chars]. by rewrite lower_char_not_upper, IH.
Qed.

Lemma lower_no_linebreak (s : string) : no_linebreak (Str.lower s) = no_linebreak s.
Proof.
  unfold no_linebreak. induction s as [|x s IH]; [reflexivity|].
  cbn [Str.lower all_chars]. by rewrite lower_char_linebreak, IH.
Qed.

Lemma lower_has_sep (s : string) : Str.has_char "=" (Str.lower s) = Str.has_char "=" s.
Proof.
  induction s as [|x s IH]; [reflexivity|].
  cbn [Str.lower Str.has_char]. by rewrite lower_char_is_sep, IH.
Qed.

Lemma env_lines_no_linebreak (content line : string) :
  In line (env_lines content) -> no_linebreak line = true.
Proof.
  unfold env_lines. rewrite filter_In. intros [H _].
  by apply (splitlines_lines_have_no_linebreak content).
Qed.

(** The entry that a line of the environment file stands for: the name is the
    text before the first [=], in lower case; name and content are single
    lines; the content neither starts nor ends with a single quote. *)
Lemma line_entry_shape (content line n c : string) :
  In line (env_lines content) ->
  line_entry line = Some (n, c) ->
  (exists k v, line = k +:+ String "=" v /\ Str.has_char "=" k = false
               /\ n = Str.lower k /\ c = unquote v)
  /\ Str.has_char "=" n = false
  /\ all_chars (fun x => negb (is_upper x)) n = true
  /\ no_linebreak n = true /\ no_linebreak c = true
  /\ (forall x r, c = String x r -> x <> "'"%char)
  /\ Str.last_char c <> Some "'"%char.
Proof.
  intros Hin He. pose proof (env_lines_no_linebreak content line Hin) as Hnl.
  apply yields_line_entry in He as (_ & k & v & Hs & <- & <-).
  destruct (split1_cuts_at_first_sep "=" line) as [[_ Hs']|(a & b & Hs' & Hline & Ha)];
    rewrite Hs in Hs'; [discriminate|]. injection Hs' as <- <-.
  rewrite Hline in Hnl. unfold no_linebreak in Hnl.
  rewrite all_chars_app in Hnl. apply andb_true_iff in Hnl as [Hk Hv].
  cbn [all_chars] in Hv. apply andb_true_iff in Hv as [_ Hv].
  destruct (strip_by_trims_both_ends (fun x => bool_decide (x = "'"%char))
              (Str.strip_char "034" (Str.strip v))) as (Hhead & Hlast & _).
  split; [by exists k, v|]. split; [by rewrite lower_has_sep|].
  split; [apply lower_no_upper|]. split; [by rewrite lower_no_linebreak|]. split.
  - unfold unquote, Str.strip_char, Str.strip, no_linebreak. by do 3 apply all_chars_strip.
  - split.
    + intros x r Hc Hx. subst x. by pose proof (Hhead _ _ Hc).
    + intros Hc. by pose proof (Hlast _ Hc).
Qed.


(** ** Runs of the extractor that end early *)

(** X5.  When the secrets path is a plain file, the extractor raises
    [NotADirectoryError] before it reads [.env]; no file is changed. *)
Theorem prepare_env_secrets_path_is_file (c : string) (h : host) (w : world) :
  files w !! ".secrets" = Some (File c) ->
  exists w',
    prepare_env h w = (Raised NotADirectoryError, w')
    /\ files w' = files w /\ spawned w' = spawned w.
Proof.
  intros H. rewrite (prepare_env_secrets_is_file c) by exact H.
  eexists. split; [reflexivity|]. by split.
Qed.

Lemma prepare_env_secrets_path_is_file_witness :
  exists w',
    prepare_env quiet_host world_secrets_is_file = (Raised NotADirectoryError, w')
    /\ files w' = files world_secrets_is_file.
Proof.
  destruct (prepare_env_secrets_path_is_file "not a directory" quiet_host
              world_secrets_is_file eq_refl) as (w' & Hrun & Hf & _).
  by exists w'.
Defined.

Lemma for_each_app {A} (l1 l2 : list A) (body : A -> M unit) (h : host) (w : world) :
  for_each (l1 ++ l2) body h w =
    match for_each l1 body h w with
    | (Done _, w') => for_each l2 body h w'
    | (Raised e, w') => (Raised e, w')
    end.
Proof.
  revert w. induction l1 as [|x l1 IH]; intros w; [reflexivity|].
  cbn [app for_each]. rewrite !bind_eq.
  destruct (body x h w) as [[[]|e] w1]; [apply IH | reflexivity].
Qed.

(** X4.  A line with a marker and no [=] ends the run with [ValueError] where
    it stands: the directory has been cleared, the entries of the lines
    before it are written, and nothing of the lines after it is. *)
Theorem prepare_env_aborts_midway
    (content : string) (before after : list string) (bad : string)
    (h : host) (w : world) :
  files w !! ".env" = Some (File content) ->
  (forall c, files w !! ".secrets" <> Some (File c)) ->
  env_lines content = before ++ bad :: after ->
  (forall line, In line before -> well_formed_line (files w) line) ->
  has_marker bad = true ->
  Str.has_char "=" bad = false ->
  exists w',
    prepare_env h w = (Raised ValueError, w')
    /\ files w' = fill (cleared (files w)) before.
Proof.
  intros He Hs Hl Hwf Hm Heq.
  rewrite prepare_env_reaches_fill by exact Hs.
  unfold prepare_env_fill. rewrite bind_eq, read_text_eq.
  cbn [files world_cleared]. rewrite cleared_env, He. mred. rewrite bind_eq.
  rewrite Hl, for_each_app, for_each_fill.
  - cbn [for_each]. rewrite bind_eq. unfold prepare_env_line at 1.
    rewrite Hm, (split1_without_sep _ _ Heq). cbn [negb]. rewrite raise_eq. mred.
    eexists. split; [reflexivity|]. reflexivity.
  - cbn [files world_cleared]. by apply cleared_dir.
  - intros line Hin Hmk. destruct (Hwf line Hin Hmk) as (k & v & Hsp & Hv & Hn).
    exists k, v. repeat split; try assumption.
    cbn [files world_cleared]. intros Hdir. apply Hn.
    apply cleared_lookup_some in Hdir; [exact Hdir | apply secret_file_not_dir_path].
Qed.

Lemma prepare_env_aborts_midway_witness :
  exists w',
    prepare_env quiet_host world_bad_line = (Raised ValueError, w')
    /\ files w' !! secret_file "api_key" = Some (File "one")
    /\ files w' !! secret_file "db_password" = None.
Proof.
  destruct (prepare_env_aborts_midway
              ("API_KEY=one" +:+ line_feed +:+ "SECRET_WITHOUT_VALUE"
               +:+ line_feed +:+ "DB_PASSWORD=two")
              ["API_KEY=one"] ["DB_PASSWORD=two"] "SECRET_WITHOUT_VALUE"
              quiet_host world_bad_line) as (w' & Hrun & Hf).
  - reflexivity.
  - intros c. discriminate.
  - reflexivity.
  - intros line [<-|[]] _. exists "API_KEY", "one". repeat split. discriminate.
  - reflexivity.
  - reflexivity.
  - exists w'. split; [exact Hrun|]. rewrite Hf. split; reflexivity.
Defined.

(** ** The files that the extractor writes *)

(** X6.  When every line of [.env] can be written, [prepare_env] returns,
    and every plain file it leaves directly in the secrets directory comes
    from a kept line with a marker: the name of the file is the text of
    the line before its first [=], in lower case, and the content is the
    unquoted text behind that [=].  So the name holds no [=] and no
    upper-case letter, name and content are single lines, and the content
    neither starts nor ends with a single quote. *)
Theorem prepare_env_written_entries_shape (content : string) (h : host) (w : world) :
  env_ready content (files w) ->
  exists w',
    prepare_env h w = (Done tt, w')
    /\ forall n c,
         entry_name n = true ->
         files w' !! secret_file n = Some (File c) ->
         (exists line k v,
            In line (env_lines content) /\ has_marker line = true
            /\ line = k +:+ String "=" v /\ Str.has_char "=" k = false
            /\ n = Str.lower k /\ c = unquote v)
         /\ Str.has_char "=" n = false
         /\ all_chars (fun x => negb (is_upper x)) n = true
         /\ no_linebreak n = true /\ no_linebreak c = true
         /\ (forall x r, c = String x r -> x <> "'"%char)
         /\ Str.last_char c <> Some "'"%char.
Proof.
  intros Hr. rewrite (prepare_env_done content h w Hr).
  eexists. split; [reflexivity|]. cbn [files]. intros n c Hn Hf.
  destruct (fill_lookup_cases (env_lines content) (cleared (files w)) (secret_file n))
    as [E|(line & n' & c' & Hin & Hle & Hp & E)].
  - rewrite Hf in E. pose proof (cleared_no_file (files w) n Hn) as Hno.
    unfold isfile_in in Hno. rewrite <- E in Hno. discriminate Hno.
  - apply secret_file_inj in Hp. subst n'. rewrite Hf in E. injection E as ->.
    pose proof (proj2 (yields_line_entry line n c') Hle) as [Hm _].
    destruct (line_entry_shape content line n c' Hin Hle)
      as ((k & v & Hline & Hk & Hnk & Hcv) & Hrest).
    split; [|exact Hrest]. exists line, k, v. by repeat split.
Qed.

Lemma prepare_env_written_entries_shape_witness :
  exists w',
    prepare_env quiet_host world_duplicate_keys = (Done tt, w')
    /\ files w' !! secret_file "api_key" = Some (File "two")
    /\ Str.has_char "=" "api_key" = false
    /\ all_chars (fun x => negb (is_upper x)) "api_key" = true.
Proof.
  destruct (prepare_env_written_entries_shape _ quiet_host world_duplicate_keys
              world_duplicate_keys_ready) as (w' & Hrun & Hshape).
  assert (Hf : files w' !! secret_file "api_key" = Some (File "two")).
  { assert (H := Hrun). vm_compute in H. injection H as H. rewrite <- H.
    vm_compute. reflexivity. }
  exists w'. split; [exact Hrun|]. split; [exact Hf|].
  destruct (Hshape "api_key" "two" eq_refl Hf) as (_ & H1 & H2 & _).
  by split.
Defined.

(** ** The bootstrapper and a missing template *)

